(** * RMC75EClient: register access to a Delta RMC75E over EtherNet/IP

    A shallow embedding of [src/rmc75e/RMC75EClient.cpp] and
    [RMC75EClient.h].  The client serialises a file/element/count header
    (plus data for writes), hands it to eipScanner's [MessageRouter] against
    the Register Map Object (class 0xC0, instance 1), checks the general
    status of the answer and copies the answer's bytes into a vector of
    [float] or [int32_t].

    Conventions of the embedding:
    - a C++ unsigned integer of w bits is a [Z] in [0, 2^w); conversions
      to a narrower type ([static_cast]) are written out as [mod];
    - [std::vector<uint8_t>] is [list Z] (each element a byte), indexed
      stores are stdpp's [<[i:=x]>], [std::memcpy] is [memcpy] below;
    - a [float] is its IEEE-754 binary32 bit pattern, an [int32_t] is a
      signed [Z]; both are stored in memory least significant byte first
      (the host is little-endian, as on every platform the library is built
      for);
    - exceptions are the [Throw] branch of [result];
    - calls into eipScanner (opening a session, releasing it,
      [sendRequest], the logger) are the events of the tree type [io]; a
      method of the client is a function from the client's fields to such
      a tree. *)

From Stdlib Require Import ZArith Lia String DecimalString HexadecimalString.
From stdpp Require Import base list strings.

Local Open Scope Z_scope.

(** ** Integer types and memory *)

Module Cpp.

Definition is_uint8 (x : Z) : Prop := 0 <= x < 256.
Definition is_uint16 (x : Z) : Prop := 0 <= x < 65536.
Definition is_uint32 (x : Z) : Prop := 0 <= x < 4294967296.
Definition is_int32 (x : Z) : Prop := -2147483648 <= x < 2147483648.

Definition static_cast_uint8 (x : Z) : Z := x mod 256.
Definition static_cast_uint16 (x : Z) : Z := x mod 65536.

(** [std::vector<T> v(n)]: n value-initialised elements. *)
Definition vector_n {A} (n : Z) (zero : A) : list A :=
  replicate (Z.to_nat n) zero.

(** [v.size()] *)
Definition size {A} (v : list A) : Z := Z.of_nat (length v).

(** [std::memcpy(dst + off, src, n)] on byte buffers.  Reading past the
    end of [src] or writing past the end of [dst] is undefined behaviour
    in C++; the model then copies the bytes that exist.  No caller in
    the client reaches that case. *)
Definition memcpy (dst : list Z) (off : nat) (src : list Z) (n : Z) : list Z :=
  list_inserts off (take (Z.to_nat n) src) dst.

(** The four bytes of a 32-bit object in memory, lowest address first. *)
Definition word_bytes (w : Z) : list Z := Z_to_little_endian 4 8 w.

(** The 32-bit object stored in (at most) four bytes. *)
Definition bytes_word (bs : list Z) : Z := little_endian_to_Z 8 (take 4 bs).

(** [ostream << n] for a non-negative integer, in decimal and after
    [std::hex]. *)
Definition dec (n : Z) : string :=
  DecimalString.NilZero.string_of_uint (N.to_uint (Z.to_N n)).
Definition hex (n : Z) : string :=
  HexadecimalString.NilZero.string_of_uint (N.to_hex_uint (Z.to_N n)).

End Cpp.
Export Cpp.

(** ** The two register value types *)

(** A type of 4-byte register values: [to_word] is the object
    representation read as an unsigned 32-bit number, [of_word] the value
    having that representation, [valid32] the values of the C++ type. *)
Class Scalar32 (T : Type) := {
  to_word : T -> Z;
  of_word : Z -> T;
  zero32 : T;
  valid32 : T -> Prop
}.

(** [float]: the IEEE-754 binary32 bit pattern. *)
Record float := Float { float_bits : Z }.

#[export] Instance float_scalar : Scalar32 float := {|
  to_word f := float_bits f;
  of_word w := Float w;
  zero32 := Float 0;
  valid32 f := is_uint32 (float_bits f)
|}.

(** [int32_t]: two's complement. *)
Definition int32_t : Type := Z.

Definition int32_to_word (v : int32_t) : Z := v mod 4294967296.

Definition int32_of_word (w : Z) : int32_t :=
  if w <? 2147483648 then w else w - 4294967296.

#[export] Instance int32_scalar : Scalar32 int32_t := {|
  to_word := int32_to_word;
  of_word := int32_of_word;
  zero32 := 0;
  valid32 := is_int32
|}.

(** What the two value types have in common: a value of the type has a
    32-bit representation, and is determined by it. *)
Class Scalar32Laws (T : Type) `{Scalar32 T} := {
  to_word_range : forall v : T, valid32 v -> is_uint32 (to_word v);
  of_to_word : forall v : T, valid32 v -> of_word (to_word v) = v
}.

Section Scalars.
Context {T : Type} `{Scalar32 T}.

(** The bytes of one value in memory. *)
Definition value_bytes (v : T) : list Z := word_bytes (to_word v).

(** [values.data()]: the bytes of the vector's elements, in order. *)
Fixpoint data_bytes (values : list T) : list Z :=
  match values with
  | [] => []
  | v :: rest => value_bytes v ++ data_bytes rest
  end.

(** The [n] values a buffer of [4*n] bytes holds. *)
Fixpoint values_of_bytes (n : nat) (bs : list Z) : list T :=
  match n with
  | O => []
  | S m => of_word (bytes_word bs) :: values_of_bytes m (drop 4 bs)
  end.

(** [std::vector<T> result(count);
     std::memcpy(result.data(), raw.data(), count * sizeof(T));] *)
Definition vector_from_raw (count : Z) (raw : list Z) : list T :=
  let result := vector_n count zero32 in
  let mem := memcpy (data_bytes result) 0 raw (count * 4) in
  values_of_bytes (length result) mem.
End Scalars.

(** ** Payload codec *)

Definition buildReadPayload (file element count : Z) : list Z :=
  let payload := vector_n 6 0 in
  let payload := <[0%nat := static_cast_uint8 (Z.land file 0xFF)]> payload in
  let payload := <[1%nat := static_cast_uint8 (Z.shiftr file 8)]> payload in
  let payload := <[2%nat := static_cast_uint8 (Z.land element 0xFF)]> payload in
  let payload := <[3%nat := static_cast_uint8 (Z.shiftr element 8)]> payload in
  let payload := <[4%nat := static_cast_uint8 (Z.land count 0xFF)]> payload in
  let payload := <[5%nat := static_cast_uint8 (Z.shiftr count 8)]> payload in
  payload.

(** [values] is the memory the [const void*] points to. *)
Definition buildWritePayload (file element : Z) (values : list Z) (count : Z)
  : list Z :=
  let payload := vector_n (6 + count * 4) 0 in
  let payload := <[0%nat := static_cast_uint8 (Z.land file 0xFF)]> payload in
  let payload := <[1%nat := static_cast_uint8 (Z.shiftr file 8)]> payload in
  let payload := <[2%nat := static_cast_uint8 (Z.land element 0xFF)]> payload in
  let payload := <[3%nat := static_cast_uint8 (Z.shiftr element 8)]> payload in
  let payload := <[4%nat := static_cast_uint8 (Z.land count 0xFF)]> payload in
  let payload := <[5%nat := static_cast_uint8 (Z.shiftr count 8)]> payload in
  memcpy payload 6 values (count * 4).

(** ** The eipScanner boundary *)

Inductive LogLevel := WARNING | INFO | DEBUG.

(** [cip::EPath(classId, objectId)] *)
Record EPath := mkEPath { classId : Z; objectId : Z }.

(** [eipScanner::MessageRouterResponse]: the general status code (a
    [CipUsint]), the additional status words ([CipUint] each) and the
    data bytes. *)
Record MessageRouterResponse := mkResponse {
  getGeneralStatusCode : Z;
  getAdditionalStatus : list Z;
  getData : list Z
}.

(** [cip::GeneralStatusCodes::SUCCESS] *)
Definition SUCCESS : Z := 0.

(** [std::exception], with its [what()]. *)
Record exception := mkException { what : string }.
Definition runtime_error (msg : string) : exception := mkException msg.

Inductive result (A : Type) : Type :=
| Return (a : A)
| Throw (e : exception).
Arguments Return {A} a.
Arguments Throw {A} e.

(** Constants of [RMC75EClient.h]. *)
Definition REGISTER_MAP_CLASS : Z := 0xC0.
Definition REGISTER_MAP_INSTANCE : Z := 0x01.
Definition SVC_READ_LSB : Z := 0x4B.
Definition SVC_WRITE_LSB : Z := 0x4C.
Definition SVC_READ_MSB : Z := 0x4D.
Definition SVC_WRITE_MSB : Z := 0x4E.
Definition DEFAULT_PORT : Z := 0xAF12.

Section Client.

(** [eipScanner::SessionInfo], an open session; opaque to the client. *)
Variable SessionInfo : Type.

(** What a method does towards eipScanner, as a tree: [MakeSession] is
    [std::make_shared<SessionInfo>(host, port)], [SendRequest] is
    [messageRouter_.sendRequest(si, service, path, data)], [Log] is one
    [Logger(level) << ...] statement, [ReleaseSession] is the client
    giving up the [shared_ptr] it holds on a session, upon which
    eipScanner's [~SessionInfo] tears the session down.  The first two
    may throw; a destructor does not throw to its caller. *)
Inductive io (A : Type) : Type :=
| Ret (a : A)
| MakeSession (host : string) (port : Z) (k : result SessionInfo -> io A)
| SendRequest (si : SessionInfo) (service : Z) (path : EPath)
    (data : list Z) (k : result MessageRouterResponse -> io A)
| Log (level : LogLevel) (msg : string) (k : io A)
| ReleaseSession (si : SessionInfo) (k : io A).
Arguments Ret {A} a.
Arguments MakeSession {A} host port k.
Arguments SendRequest {A} si service path data k.
Arguments Log {A} level msg k.
Arguments ReleaseSession {A} si k.

Fixpoint io_bind {A B} (p : io A) (f : A -> io B) : io B :=
  match p with
  | Ret a => f a
  | MakeSession host port k => MakeSession host port (fun r => io_bind (k r) f)
  | SendRequest si service path data k =>
      SendRequest si service path data (fun r => io_bind (k r) f)
  | Log level msg k => Log level msg (io_bind k f)
  | ReleaseSession si k => ReleaseSession si (io_bind k f)
  end.

(** The private fields of the class ([messageRouter_] has no state). *)
Record RMC75EClient := mkClient {
  plcAddress_ : string;
  port_ : Z;
  sessionInfo_ : option SessionInfo
}.

(** A method: it reads and updates the fields, talks to eipScanner, and
    returns or throws. *)
Definition method (A : Type) : Type :=
  RMC75EClient -> io (result A * RMC75EClient).

Definition ret {A} (a : A) : method A := fun c => Ret (Return a, c).
Definition throw {A} (e : exception) : method A := fun c => Ret (Throw e, c).

Definition bind {A B} (m : method A) (f : A -> method B) : method B :=
  fun c => io_bind (m c) (fun rc =>
    match fst rc with
    | Return a => f a (snd rc)
    | Throw e => Ret (Throw e, snd rc)
    end).

(** [try { m } catch (const std::exception& e) { h e }] *)
Definition try_catch {A} (m : method A) (h : exception -> method A) : method A :=
  fun c => io_bind (m c) (fun rc =>
    match fst rc with
    | Return a => Ret (Return a, snd rc)
    | Throw e => h e (snd rc)
    end).

Definition this : method RMC75EClient := fun c => Ret (Return c, c).
Definition set_sessionInfo (s : option SessionInfo) : method unit :=
  fun c => Ret (Return tt, mkClient (plcAddress_ c) (port_ c) s).
Definition make_session (host : string) (port : Z) : method SessionInfo :=
  fun c => MakeSession host port (fun r => Ret (r, c)).
Definition sendRequest (si : SessionInfo) (service : Z) (path : EPath)
    (data : list Z) : method MessageRouterResponse :=
  fun c => SendRequest si service path data (fun r => Ret (r, c)).
Definition Logger (level : LogLevel) (msg : string) : method unit :=
  fun c => Log level msg (Ret (Return tt, c)).

(** [sessionInfo_.reset()]: the pointer becomes null; a session it held
    is released. *)
Definition reset_sessionInfo : method unit :=
  fun c =>
    match sessionInfo_ c with
    | Some si =>
        ReleaseSession si (Ret (Return tt, mkClient (plcAddress_ c) (port_ c) None))
    | None => Ret (Return tt, mkClient (plcAddress_ c) (port_ c) None)
    end.

Notation "'do' x <- m ; k" := (bind m (fun x => k))
  (at level 10, x name, m at level 100, k at level 200).
Notation "'seq' m ; k" := (bind m (fun _ => k))
  (at level 10, m at level 100, k at level 200).

(** *** Construction, connect, disconnect *)

(** The constructor (the Winsock start-up of the Windows build is left
    out). *)
Definition constructor (plcAddress : string) (port : Z) : io RMC75EClient :=
  Log INFO ("RMC75EClient created for " +:+ plcAddress +:+ ":" +:+ dec port)
    (Ret (mkClient plcAddress port None)).

Definition connect : method unit :=
  do c <- this;
  match sessionInfo_ c with
  | Some _ => seq Logger WARNING "Already connected"; ret tt
  | None =>
      try_catch
        (do si <- make_session (plcAddress_ c) (port_ c);
         seq set_sessionInfo (Some si);
         Logger INFO ("Connected to RMC75E at " +:+ plcAddress_ c))
        (fun e =>
           seq reset_sessionInfo;
           throw (runtime_error ("Failed to connect to RMC75E at "
                                 +:+ plcAddress_ c +:+ ": " +:+ what e)))
  end.

Definition disconnect : method unit :=
  do c <- this;
  match sessionInfo_ c with
  | Some _ =>
      seq Logger INFO "Disconnecting from RMC75E";
      reset_sessionInfo
  | None => ret tt
  end.

Definition isConnected (c : RMC75EClient) : bool :=
  match sessionInfo_ c with Some _ => true | None => false end.

(** *** The request executor *)

(** The loop over [additional] in [executeRequest], started at index [i]. *)
Fixpoint print_additional (i : nat) (additional : list Z) : string :=
  match additional with
  | [] => ""
  | w :: rest =>
      (if (0 <? i)%nat then ", " else "") +:+ "0x" +:+ hex w
      +:+ print_additional (S i) rest
  end.

(** The text of the exception thrown on a status other than SUCCESS. *)
Definition status_message (service : Z) (response : MessageRouterResponse)
  : string :=
  "CIP request failed: service=0x" +:+ hex service
  +:+ " status=0x" +:+ hex (getGeneralStatusCode response)
  +:+ (match getAdditionalStatus response with
       | [] => ""
       | additional => " additional=[" +:+ print_additional 0 additional +:+ "]"
       end).

Definition executeRequest (service : Z) (payload : list Z) : method (list Z) :=
  do c <- this;
  match sessionInfo_ c with
  | None => throw (runtime_error "Not connected - call connect() first")
  | Some si =>
      do response <- sendRequest si service
                       (mkEPath REGISTER_MAP_CLASS REGISTER_MAP_INSTANCE)
                       payload;
      if negb (getGeneralStatusCode response =? SUCCESS)
      then throw (runtime_error (status_message service response))
      else ret (getData response)
  end.

(** *** Register read and write *)

Definition readFloat (file element count : Z) : method (list float) :=
  let payload := buildReadPayload file element count in
  do raw <- executeRequest SVC_READ_LSB payload;
  if size raw <? count * 4
  then throw (runtime_error ("readFloat: expected " +:+ dec (count * 4)
                             +:+ " bytes, got " +:+ dec (size raw)))
  else
    let result : list float := vector_from_raw count raw in
    seq Logger DEBUG ("readFloat F" +:+ dec file +:+ ":" +:+ dec element
                     +:+ " count=" +:+ dec count +:+ " OK");
    ret result.

Definition writeFloat (file element : Z) (values : list float) : method unit :=
  let payload := buildWritePayload file element (data_bytes values)
                   (static_cast_uint16 (size values)) in
  seq executeRequest SVC_WRITE_LSB payload;
  Logger DEBUG ("writeFloat F" +:+ dec file +:+ ":" +:+ dec element
                +:+ " count=" +:+ dec (size values) +:+ " OK").

Definition readInt32 (file element count : Z) : method (list int32_t) :=
  let payload := buildReadPayload file element count in
  do raw <- executeRequest SVC_READ_LSB payload;
  if size raw <? count * 4
  then throw (runtime_error ("readInt32: expected " +:+ dec (count * 4)
                             +:+ " bytes, got " +:+ dec (size raw)))
  else
    let result : list int32_t := vector_from_raw count raw in
    seq Logger DEBUG ("readInt32 L" +:+ dec file +:+ ":" +:+ dec element
                     +:+ " count=" +:+ dec count +:+ " OK");
    ret result.

Definition writeInt32 (file element : Z) (values : list int32_t) : method unit :=
  let payload := buildWritePayload file element (data_bytes values)
                   (static_cast_uint16 (size values)) in
  seq executeRequest SVC_WRITE_LSB payload;
  Logger DEBUG ("writeInt32 L" +:+ dec file +:+ ":" +:+ dec element
                +:+ " count=" +:+ dec (size values) +:+ " OK").

Definition sendRawRequest (service : Z) (data : list Z) : method (list Z) :=
  executeRequest service data.

End Client.

Arguments Ret {SessionInfo A} a.
Arguments MakeSession {SessionInfo A} host port k.
Arguments SendRequest {SessionInfo A} si service path data k.
Arguments Log {SessionInfo A} level msg k.
Arguments ReleaseSession {SessionInfo A} si k.
Arguments io_bind {SessionInfo A B} p f.
Arguments mkClient {SessionInfo} _ _ _.
Arguments plcAddress_ {SessionInfo} _.
Arguments port_ {SessionInfo} _.
Arguments sessionInfo_ {SessionInfo} _.
Arguments ret {SessionInfo A} a _.
Arguments throw {SessionInfo A} e _.
Arguments bind {SessionInfo A B} m f _.
Arguments try_catch {SessionInfo A} m h _.
Arguments this {SessionInfo} _.
Arguments set_sessionInfo {SessionInfo} s _.
Arguments make_session {SessionInfo} host port _.
Arguments sendRequest {SessionInfo} si service path data _.
Arguments Logger {SessionInfo} level msg _.
Arguments reset_sessionInfo {SessionInfo} _.
Arguments constructor {SessionInfo} plcAddress port.
Arguments connect {SessionInfo} _.
Arguments disconnect {SessionInfo} _.
Arguments isConnected {SessionInfo} c.
Arguments executeRequest {SessionInfo} service payload _.
Arguments readFloat {SessionInfo} file element count _.
Arguments writeFloat {SessionInfo} file element values _.
Arguments readInt32 {SessionInfo} file element count _.
Arguments writeInt32 {SessionInfo} file element values _.
Arguments sendRawRequest {SessionInfo} service data _.

(** The exception of [executeRequest] without a session, and the path of
    the Register Map Object. *)
Definition not_connected : exception :=
  runtime_error "Not connected - call connect() first".

Definition register_map : EPath := mkEPath 0xC0 0x01.

(** What [readFloat] and [readInt32] do with the bytes [executeRequest]
    returned. *)
Definition readFloat_rest {SessionInfo} (file element count : Z) (raw : list Z)
  : method SessionInfo (list float) :=
  if size raw <? count * 4
  then throw (runtime_error ("readFloat: expected " +:+ dec (count * 4)
                             +:+ " bytes, got " +:+ dec (size raw)))
  else bind (Logger DEBUG ("readFloat F" +:+ dec file +:+ ":" +:+ dec element
                           +:+ " count=" +:+ dec count +:+ " OK"))
         (fun _ => ret (vector_from_raw count raw)).

Definition readInt32_rest {SessionInfo} (file element count : Z) (raw : list Z)
  : method SessionInfo (list int32_t) :=
  if size raw <? count * 4
  then throw (runtime_error ("readInt32: expected " +:+ dec (count * 4)
                             +:+ " bytes, got " +:+ dec (size raw)))
  else bind (Logger DEBUG ("readInt32 L" +:+ dec file +:+ ":" +:+ dec element
                           +:+ " count=" +:+ dec count +:+ " OK"))
         (fun _ => ret (vector_from_raw count raw)).

(** ** Running a method against a transport *)

(** One call of [messageRouter_.sendRequest]. *)
Record Request (SessionInfo : Type) := mkRequest {
  req_session : SessionInfo;
  req_service : Z;
  req_path : EPath;
  req_data : list Z
}.
Arguments mkRequest {SessionInfo} _ _ _ _.
Arguments req_session {SessionInfo} _.
Arguments req_service {SessionInfo} _.
Arguments req_path {SessionInfo} _.
Arguments req_data {SessionInfo} _.

(** [issues p q]: some run of [p] calls [sendRequest] with the arguments
    [q], whatever eipScanner answers before. *)
Inductive issues {SessionInfo A : Type} : io SessionInfo A -> Request SessionInfo -> Prop :=
| issues_now si service path data k :
    issues (SendRequest si service path data k) (mkRequest si service path data)
| issues_after_send si service path data k r q :
    issues (k r) q -> issues (SendRequest si service path data k) q
| issues_after_session host port k r q :
    issues (k r) q -> issues (MakeSession host port k) q
| issues_after_log level msg k q :
    issues k q -> issues (Log level msg k) q
| issues_after_release si k q :
    issues k q -> issues (ReleaseSession si k) q.

(** An implementation of the boundary: the state of the network and the
    device, and what each call does to it. *)
Record Transport (SessionInfo : Type) := mkTransport {
  World : Type;
  open_session : string -> Z -> World -> result SessionInfo * World;
  send : Request SessionInfo -> World -> result MessageRouterResponse * World;
  write_log : LogLevel -> string -> World -> World;
  release_session : SessionInfo -> World -> World
}.
Arguments World {SessionInfo} _.
Arguments open_session {SessionInfo} _ _ _ _.
Arguments send {SessionInfo} _ _ _.
Arguments write_log {SessionInfo} _ _ _ _.
Arguments release_session {SessionInfo} _ _ _.

Fixpoint run {SessionInfo A} (E : Transport SessionInfo) (p : io SessionInfo A)
    (w : World E) : A * World E :=
  match p with
  | Ret a => (a, w)
  | MakeSession host port k =>
      let rw := open_session E host port w in run E (k (fst rw)) (snd rw)
  | SendRequest si service path data k =>
      let rw := send E (mkRequest si service path data) w in
      run E (k (fst rw)) (snd rw)
  | Log level msg k => run E k (write_log E level msg w)
  | ReleaseSession si k => run E k (release_session E si w)
  end.

(** Observing a tree: the first call it makes into eipScanner, and how it
    goes on once that call has returned or thrown [r]. *)
Definition first_request {SessionInfo A} (p : io SessionInfo A)
  : option (Request SessionInfo) :=
  match p with
  | SendRequest si service path data _ => Some (mkRequest si service path data)
  | _ => None
  end.

Definition after_send {SessionInfo A} (p : io SessionInfo A)
    (r : result MessageRouterResponse) : io SessionInfo A :=
  match p with
  | SendRequest _ _ _ _ k => k r
  | _ => p
  end.

Definition first_session {SessionInfo A} (p : io SessionInfo A)
  : option (string * Z) :=
  match p with
  | MakeSession host port _ => Some (host, port)
  | _ => None
  end.

Definition after_session {SessionInfo A} (p : io SessionInfo A)
    (r : result SessionInfo) : io SessionInfo A :=
  match p with
  | MakeSession _ _ k => k r
  | _ => p
  end.

(** [silent p]: no run of [p] calls [sendRequest]. *)
Definition silent {SessionInfo A} (p : io SessionInfo A) : Prop :=
  forall q, ~ issues p q.

(** The public methods, with their arguments. *)
Inductive operation :=
| OpConnect
| OpDisconnect
| OpReadFloat (file element count : Z)
| OpWriteFloat (file element : Z) (values : list float)
| OpReadInt32 (file element count : Z)
| OpWriteInt32 (file element : Z) (values : list int32_t)
| OpSendRawRequest (service : Z) (data : list Z).

Definition op_issues {SessionInfo} (op : operation)
    (c : RMC75EClient SessionInfo) (q : Request SessionInfo) : Prop :=
  match op with
  | OpConnect => issues (connect c) q
  | OpDisconnect => issues (disconnect c) q
  | OpReadFloat file element count => issues (readFloat file element count c) q
  | OpWriteFloat file element values => issues (writeFloat file element values c) q
  | OpReadInt32 file element count => issues (readInt32 file element count c) q
  | OpWriteInt32 file element values => issues (writeInt32 file element values c) q
  | OpSendRawRequest service data => issues (sendRawRequest service data c) q
  end.

(** [contains s sub]: the text [sub] occurs in [s]. *)
Definition contains (s sub : string) : Prop :=
  exists before after, s = before +:+ sub +:+ after.

(** Sequences of [connect()] and [disconnect()] calls on one client. *)
Inductive lifecycle_call := CallConnect | CallDisconnect.

Definition invoke {SessionInfo} (k : lifecycle_call) : method SessionInfo unit :=
  match k with
  | CallConnect => connect
  | CallDisconnect => disconnect
  end.

Fixpoint run_calls {SessionInfo} (E : Transport SessionInfo)
    (calls : list lifecycle_call) (c : RMC75EClient SessionInfo) (w : World E)
  : RMC75EClient SessionInfo * World E :=
  match calls with
  | [] => (c, w)
  | k :: rest =>
      let out := run E (invoke k c) w in
      run_calls E rest (snd (fst out)) (snd out)
  end.

(** What the caller sees of such a sequence: each call with its outcome. *)
Fixpoint outcomes {SessionInfo} (E : Transport SessionInfo)
    (calls : list lifecycle_call) (c : RMC75EClient SessionInfo) (w : World E)
  : list (lifecycle_call * result unit) :=
  match calls with
  | [] => []
  | k :: rest =>
      let out := run E (invoke k c) w in
      (k, fst (fst out)) :: outcomes E rest (snd (fst out)) (snd out)
  end.

(** The reading of such a history, from the calls and their outcomes
    alone.  [changes_state connected k r]: the call [k], made when the
    calls before it left the client [connected] or not, and ending in
    [r], is a successful state-changing call: a [connect()] made while
    disconnected that returns normally, or a [disconnect()] made while
    connected. *)
Definition changes_state (connected : bool) (k : lifecycle_call)
    (r : result unit) : bool :=
  match k, r with
  | CallConnect, Return _ => negb connected
  | CallConnect, Throw _ => false
  | CallDisconnect, _ => connected
  end.

(** The last successful state-changing call of a history that starts
    [connected] or not; [last] when there is none. *)
Fixpoint last_change (connected : bool)
    (history : list (lifecycle_call * result unit))
    (last : option lifecycle_call) : option lifecycle_call :=
  match history with
  | [] => last
  | (k, r) :: rest =>
      if changes_state connected k r
      then last_change (negb connected) rest (Some k)
      else last_change connected rest last
  end.

(** A scripted transport for examples: sessions are numbered, the world is
    the queue of answers still to give, the requests and the log written
    so far, and the sessions released so far. *)
Module Mock.
Record world := Build_world {
  sessions : list (result Z);
  answers : list (result MessageRouterResponse);
  sent : list (Request Z);
  logged : list (LogLevel * string);
  released : list Z
}.

(** A world in which no session has been released yet. *)
Definition mkWorld (sessions : list (result Z))
    (answers : list (result MessageRouterResponse)) (sent : list (Request Z))
    (logged : list (LogLevel * string)) : world :=
  Build_world sessions answers sent logged [].

Definition refused : exception := runtime_error "connection refused".
Definition timed_out : exception := runtime_error "timed out".

Definition transport : Transport Z := {|
  World := world;
  open_session host port w :=
    match sessions w with
    | [] => (Throw refused, w)
    | r :: rest => (r, Build_world rest (answers w) (sent w) (logged w) (released w))
    end;
  send q w :=
    match answers w with
    | [] => (Throw timed_out,
             Build_world (sessions w) [] (sent w ++ [q]) (logged w) (released w))
    | r :: rest =>
        (r, Build_world (sessions w) rest (sent w ++ [q]) (logged w) (released w))
    end;
  write_log level msg w :=
    Build_world (sessions w) (answers w) (sent w) (logged w ++ [(level, msg)])
      (released w);
  release_session si w :=
    Build_world (sessions w) (answers w) (sent w) (logged w) (released w ++ [si])
|}.

Definition client (s : option Z) : RMC75EClient Z :=
  mkClient "192.168.17.200" DEFAULT_PORT s.
End Mock.

(** ** Outcomes of all runs *)

(** [always P p]: every run of [p], whatever eipScanner answers or throws,
    ends in an outcome satisfying [P]. *)
Fixpoint always {SessionInfo A} (P : A -> Prop) (p : io SessionInfo A) : Prop :=
  match p with
  | Ret a => P a
  | MakeSession _ _ k => forall r, always P (k r)
  | SendRequest _ _ _ _ k => forall r, always P (k r)
  | Log _ _ k => always P k
  | ReleaseSession _ k => always P k
  end.

(** The texts [parts] with [sep] between neighbours. *)
Fixpoint join_with (sep : string) (parts : list string) : string :=
  match parts with
  | [] => ""
  | [p] => p
  | p :: rest => p +:+ sep +:+ join_with sep rest
  end.

(** ** Undefined behaviour made explicit *)

(** [std::memcpy(dst + off, src, n)] stays inside both buffers. *)
Definition memcpy_in_bounds (dst : list Z) (off : Z) (src : list Z) (n : Z) : bool :=
  (0 <=? n) && (off + n <=? size dst) && (n <=? size src).

(** [memcpy], or [None] where the C++ call has undefined behaviour. *)
Definition memcpy_checked (dst : list Z) (off : Z) (src : list Z) (n : Z)
  : option (list Z) :=
  if memcpy_in_bounds dst off src n
  then Some (memcpy dst (Z.to_nat off) src n)
  else None.

(** [buildWritePayload] again, with [None] where the computation of the
    size overflows [int] or the copy leaves a buffer. *)
Definition buildWritePayload_checked (file element : Z) (values : list Z)
    (count : Z) : option (list Z) :=
  if (-2147483648 <=? 6 + count * 4) && (6 + count * 4 <? 2147483648)
  then
    let payload := vector_n (6 + count * 4) 0 in
    let payload := <[0%nat := static_cast_uint8 (Z.land file 0xFF)]> payload in
    let payload := <[1%nat := static_cast_uint8 (Z.shiftr file 8)]> payload in
    let payload := <[2%nat := static_cast_uint8 (Z.land element 0xFF)]> payload in
    let payload := <[3%nat := static_cast_uint8 (Z.shiftr element 8)]> payload in
    let payload := <[4%nat := static_cast_uint8 (Z.land count 0xFF)]> payload in
    let payload := <[5%nat := static_cast_uint8 (Z.shiftr count 8)]> payload in
    memcpy_checked payload 6 values (count * 4)
  else None.

(** The copy into [result] of [readFloat] and [readInt32], likewise. *)
Definition vector_from_raw_checked {T : Type} `{Scalar32 T} (count : Z)
    (raw : list Z) : option (list T) :=
  let result := vector_n count zero32 in
  match memcpy_checked (data_bytes result) 0 raw (count * 4) with
  | Some mem => Some (values_of_bytes (length result) mem)
  | None => None
  end.

(** ** Examples *)

Example read_57_30_1 : buildReadPayload 57 30 1 = [0x39; 0x00; 0x1E; 0x00; 0x01; 0x00].
Proof. reflexivity. Qed.

Example write_one_float :
  buildWritePayload 57 33 (data_bytes [Float 0x4048F5C3]) 1
  = [0x39; 0; 0x21; 0; 1; 0; 0xC3; 0xF5; 0x48; 0x40].
Proof. reflexivity. Qed.

Example read_back_float :
  vector_from_raw 1 [0xC3; 0xF5; 0x48; 0x40; 0xAA] = [Float 0x4048F5C3].
Proof. reflexivity. Qed.

Example read_back_int32 :
  vector_from_raw (T := int32_t) 2 [0xFF; 0xFF; 0xFF; 0xFF; 2; 1; 0; 0] = [-1; 258].
Proof. reflexivity. Qed.

Example connect_then_read :
  let w := Mock.mkWorld [Return 7]
             [Return (mkResponse SUCCESS [] [0xC3; 0xF5; 0x48; 0x40])] [] [] in
  let connected := run Mock.transport (connect (Mock.client None)) w in
  let read := run Mock.transport (readFloat 57 30 1 (snd (fst connected)))
                (snd connected) in
  fst (fst read) = Return [Float 0x4048F5C3]
  /\ Mock.sent (snd read)
     = [mkRequest 7 0x4B (mkEPath 0xC0 1) [0x39; 0; 0x1E; 0; 1; 0]]
  /\ Mock.logged (snd read)
     = [(INFO, "Connected to RMC75E at 192.168.17.200");
        (DEBUG, "readFloat F57:30 count=1 OK")].
Proof. repeat split; reflexivity. Qed.

Example read_short_answer :
  fst (run Mock.transport (readInt32 57 32 2 (Mock.client (Some 7)))
         (Mock.mkWorld [] [Return (mkResponse SUCCESS [] [1; 0; 0; 0])] [] []))
  = (Throw (runtime_error "readInt32: expected 8 bytes, got 4"),
     Mock.client (Some 7)).
Proof. reflexivity. Qed.

Example read_status_failure :
  fst (run Mock.transport (readInt32 57 32 1 (Mock.client (Some 7)))
         (Mock.mkWorld [] [Return (mkResponse 8 [0x1234; 0xff] [1; 2; 3; 4])] [] []))
  = (Throw (runtime_error
              "CIP request failed: service=0x4b status=0x8 additional=[0x1234, 0xff]"),
     Mock.client (Some 7)).
Proof. reflexivity. Qed.

Example read_without_session :
  run Mock.transport (readFloat 57 30 1 (Mock.client None))
    (Mock.mkWorld [] [] [] [])
  = ((Throw not_connected, Mock.client None), Mock.mkWorld [] [] [] []).
Proof. reflexivity. Qed.

Example connect_disconnect_twice :
  let w := Mock.mkWorld [Return 7] [] [] [] in
  let out := run_calls Mock.transport
               [CallConnect; CallDisconnect; CallDisconnect]
               (Mock.client None) w in
  fst out = Mock.client None
  /\ Mock.released (snd out) = [7]
  /\ Mock.logged (snd out)
     = [(INFO, "Connected to RMC75E at 192.168.17.200");
        (INFO, "Disconnecting from RMC75E")]
  /\ outcomes Mock.transport [CallConnect; CallDisconnect; CallDisconnect]
       (Mock.client None) w
     = [(CallConnect, Return tt); (CallDisconnect, Return tt);
        (CallDisconnect, Return tt)]
  /\ last_change false
       (outcomes Mock.transport [CallConnect; CallDisconnect; CallDisconnect]
          (Mock.client None) w) None
     = Some CallDisconnect.
Proof. repeat split; reflexivity. Qed.

Example connect_refused_example :
  fst (run Mock.transport (connect (Mock.client None)) (Mock.mkWorld [] [] [] []))
  = (Throw (runtime_error
              "Failed to connect to RMC75E at 192.168.17.200: connection refused"),
     Mock.client None).
Proof. reflexivity. Qed.

(** * Properties *)

(** ** Bytes and words *)

Lemma cast8_low (x : Z) : static_cast_uint8 (Z.land x 0xFF) = Z.land x (Z.ones 8).
Proof.
  unfold static_cast_uint8. change 0xFF with (Z.ones 8).
  rewrite Z.land_ones by lia. change (2 ^ 8) with 256.
  apply Z.mod_mod. lia.
Qed.

Lemma cast8_high (x : Z) :
  static_cast_uint8 (Z.shiftr x 8) = Z.land (Z.shiftr x 8) (Z.ones 8).
Proof. unfold static_cast_uint8. rewrite Z.land_ones by lia. reflexivity. Qed.

Lemma little_endian_16 (x : Z) :
  Z_to_little_endian 2 8 x = [Z.land x (Z.ones 8); Z.land (Z.shiftr x 8) (Z.ones 8)].
Proof.
  change 2 with (Z.succ (Z.succ 0)).
  rewrite !Z_to_little_endian_succ, Z_to_little_endian_0 by lia. reflexivity.
Qed.

Lemma little_endian_16_value (x : Z) :
  is_uint16 x -> little_endian_to_Z 8 (Z_to_little_endian 2 8 x) = x.
Proof.
  intros Hx. rewrite little_endian_to_Z_to_little_endian by lia.
  apply Z.mod_small. exact Hx.
Qed.

Lemma word_bytes_length (w : Z) : length (word_bytes w) = 4%nat.
Proof.
  apply Nat2Z.inj. unfold word_bytes.
  rewrite length_Z_to_little_endian by lia. reflexivity.
Qed.

Lemma word_bytes_bytes (w : Z) : Forall is_uint8 (word_bytes w).
Proof. unfold word_bytes. apply (Z_to_little_endian_bound 4 8); lia. Qed.

Lemma bytes_word_bytes (w : Z) (rest : list Z) :
  is_uint32 w -> bytes_word (word_bytes w ++ rest) = w.
Proof.
  intros Hw. unfold bytes_word.
  rewrite <- (word_bytes_length w), take_app_length. unfold word_bytes.
  rewrite little_endian_to_Z_to_little_endian by lia.
  apply Z.mod_small. exact Hw.
Qed.

Lemma size_replicate {A} (n : Z) (x : A) :
  0 <= n -> size (replicate (Z.to_nat n) x) = n.
Proof. intros Hn. unfold size. rewrite length_replicate. lia. Qed.

(** ** The header and the write payload *)

Lemma buildReadPayload_fields (file element count : Z) :
  buildReadPayload file element count
  = Z_to_little_endian 2 8 file ++ Z_to_little_endian 2 8 element
    ++ Z_to_little_endian 2 8 count.
Proof.
  rewrite !little_endian_16. unfold buildReadPayload. cbn [vector_n].
  change (Z.to_nat 6) with 6%nat. cbn [replicate list_insert insert].
  rewrite !cast8_low, !cast8_high. reflexivity.
Qed.

Lemma buildReadPayload_length (file element count : Z) :
  length (buildReadPayload file element count) = 6%nat.
Proof. reflexivity. Qed.

Lemma memcpy_all (dst src : list Z) (n : Z) :
  length dst = Z.to_nat n -> (Z.to_nat n <= length src)%nat ->
  memcpy dst 0 src n = take (Z.to_nat n) src.
Proof.
  intros Hdst Hsrc. unfold memcpy.
  rewrite <- (app_nil_r (take (Z.to_nat n) src)) at 1.
  apply list_inserts_0_l. rewrite length_take. lia.
Qed.

Lemma buildWritePayload_split (file element : Z) (values : list Z) (count : Z) :
  0 <= count ->
  buildWritePayload file element values count
  = buildReadPayload file element count
    ++ memcpy (vector_n (count * 4) 0) 0 values (count * 4).
Proof.
  intros Hc. unfold buildWritePayload, buildReadPayload, memcpy, vector_n.
  rewrite Z2Nat.inj_add by lia. change (Z.to_nat 6) with 6%nat.
  cbn [replicate Nat.add list_insert insert].
  rewrite !list_inserts_cons. reflexivity.
Qed.

Lemma buildWritePayload_size (file element : Z) (values : list Z) (count : Z) :
  0 <= count ->
  size (buildWritePayload file element values count) = 6 + count * 4.
Proof.
  intros Hc. unfold buildWritePayload, memcpy, vector_n, size.
  rewrite length_inserts, !length_insert, length_replicate. lia.
Qed.

Lemma buildWritePayload_copy (file element : Z) (values : list Z) (count : Z) :
  0 <= count -> count * 4 <= size values ->
  buildWritePayload file element values count
  = buildReadPayload file element count ++ take (Z.to_nat (count * 4)) values.
Proof.
  intros Hc Hlen. rewrite buildWritePayload_split by exact Hc.
  f_equal. apply memcpy_all.
  - unfold vector_n. apply length_replicate.
  - unfold size in Hlen. lia.
Qed.

(** ** Register values in memory *)

Lemma int32_of_to_word (v : int32_t) :
  is_int32 v -> int32_of_word (int32_to_word v) = v.
Proof.
  unfold is_int32, int32_of_word, int32_to_word. intros Hv.
  destruct (Z.ltb_spec (v mod 4294967296) 2147483648) as [Hlt | Hge];
    Z.div_mod_to_equations; lia.
Qed.

#[export] Instance float_laws : Scalar32Laws float.
Proof.
  split.
  - intros f Hf. exact Hf.
  - intros [b] _. reflexivity.
Qed.

#[export] Instance int32_laws : Scalar32Laws int32_t.
Proof.
  split.
  - intros v _. cbn. unfold is_uint32, int32_to_word.
    apply Z.mod_pos_bound. lia.
  - exact int32_of_to_word.
Qed.

Section ScalarFacts.
Context {T : Type} `{Scalar32Laws T}.

Lemma value_bytes_length (v : T) : length (value_bytes v) = 4%nat.
Proof. apply word_bytes_length. Qed.

Lemma data_bytes_length (values : list T) :
  length (data_bytes values) = (4 * length values)%nat.
Proof.
  induction values as [| v rest IH]; [reflexivity |].
  cbn [data_bytes]. rewrite length_app, value_bytes_length, IH. cbn [length]. lia.
Qed.

Lemma data_bytes_size (values : list T) :
  size (data_bytes values) = 4 * size values.
Proof. unfold size. rewrite data_bytes_length. lia. Qed.

Lemma data_bytes_little_endian (values : list T) :
  data_bytes values
  = concat (map (fun v => Z_to_little_endian 4 8 (to_word v)) values).
Proof.
  induction values as [| v rest IH]; [reflexivity |].
  cbn [data_bytes map concat]. rewrite IH. reflexivity.
Qed.

Lemma data_bytes_take (n : nat) (values : list T) :
  take (4 * n) (data_bytes values) = data_bytes (take n values).
Proof.
  revert values. induction n as [| n IH]; intros values.
  - reflexivity.
  - destruct values as [| v rest]; [reflexivity |].
    cbn [data_bytes take].
    replace (4 * S n)%nat with (length (value_bytes v) + 4 * n)%nat
      by (rewrite value_bytes_length; lia).
    rewrite take_app_add, IH. reflexivity.
Qed.

Lemma values_of_bytes_length (n : nat) (bs : list Z) :
  length (values_of_bytes (T := T) n bs) = n.
Proof.
  revert bs. induction n as [| n IH]; intros bs; [reflexivity |].
  cbn [values_of_bytes length]. rewrite IH. reflexivity.
Qed.

Lemma values_of_bytes_lookup (n i : nat) (bs : list Z) :
  (i < n)%nat ->
  values_of_bytes (T := T) n bs !! i
  = Some (of_word (little_endian_to_Z 8 (take 4 (drop (4 * i) bs)))).
Proof.
  revert i bs. induction n as [| n IH]; intros i bs Hi; [lia |].
  destruct i as [| i].
  - reflexivity.
  - cbn [values_of_bytes]. rewrite lookup_cons. rewrite IH by lia.
    rewrite drop_drop.
    replace (4 * S i)%nat with (4 + 4 * i)%nat by lia. reflexivity.
Qed.

Lemma values_of_bytes_take (n : nat) (bs : list Z) :
  values_of_bytes (T := T) n (take (4 * n) bs) = values_of_bytes n bs.
Proof.
  revert bs. induction n as [| n IH]; intros bs; [reflexivity |].
  cbn [values_of_bytes]. f_equal.
  - unfold bytes_word. rewrite take_take.
    replace (4 `min` (4 * S n))%nat with 4%nat by lia. reflexivity.
  - rewrite <- (IH (drop 4 bs)). f_equal.
    rewrite take_drop_commute. f_equal. f_equal. lia.
Qed.

Lemma values_of_bytes_data (values : list T) (rest : list Z) :
  Forall valid32 values ->
  values_of_bytes (length values) (data_bytes values ++ rest) = values.
Proof.
  induction 1 as [| v vs Hv Hvs IH]; [reflexivity |].
  cbn [length values_of_bytes data_bytes]. unfold value_bytes at 1 2.
  rewrite <- app_assoc. f_equal.
  - rewrite bytes_word_bytes by (apply to_word_range; exact Hv).
    apply of_to_word. exact Hv.
  - rewrite <- (word_bytes_length (to_word v)) at 1.
    rewrite drop_app_length. exact IH.
Qed.

Lemma vector_from_raw_values (count : Z) (raw : list Z) :
  0 <= count -> count * 4 <= size raw ->
  vector_from_raw (T := T) count raw = values_of_bytes (Z.to_nat count) raw.
Proof.
  intros Hc Hraw. unfold vector_from_raw, vector_n, size in *.
  rewrite length_replicate. rewrite memcpy_all.
  - replace (Z.to_nat (count * 4)) with (4 * Z.to_nat count)%nat by lia.
    apply values_of_bytes_take.
  - rewrite data_bytes_length, length_replicate. lia.
  - lia.
Qed.

(** Writing then reading back, on the bytes alone. *)
Lemma vector_from_raw_data (values : list T) (rest : list Z) :
  Forall valid32 values ->
  vector_from_raw (size values) (data_bytes values ++ rest) = values.
Proof.
  intros Hv. rewrite vector_from_raw_values.
  - unfold size. rewrite Nat2Z.id. apply values_of_bytes_data. exact Hv.
  - unfold size. lia.
  - unfold size. rewrite length_app, data_bytes_length. lia.
Qed.
End ScalarFacts.

(** ** The methods as trees *)

Section MethodFacts.
Context {SessionInfo : Type}.
Implicit Types (c : RMC75EClient SessionInfo) (si : SessionInfo).

Lemma executeRequest_no_session c service payload :
  sessionInfo_ c = None ->
  executeRequest service payload c = Ret (Throw not_connected, c).
Proof. intros Hs. unfold executeRequest, bind, this. cbn. rewrite Hs. reflexivity. Qed.

Lemma executeRequest_request c si service payload :
  sessionInfo_ c = Some si ->
  first_request (executeRequest service payload c)
  = Some (mkRequest si service register_map payload).
Proof. intros Hs. unfold executeRequest, bind, this. cbn. rewrite Hs. reflexivity. Qed.

Lemma executeRequest_success c si service payload response :
  sessionInfo_ c = Some si ->
  getGeneralStatusCode response = SUCCESS ->
  after_send (executeRequest service payload c) (Return response)
  = Ret (Return (getData response), c).
Proof.
  intros Hs Hok. unfold executeRequest, bind, this. cbn. rewrite Hs. cbn.
  rewrite Hok. reflexivity.
Qed.

Lemma executeRequest_status c si service payload response :
  sessionInfo_ c = Some si ->
  getGeneralStatusCode response <> SUCCESS ->
  after_send (executeRequest service payload c) (Return response)
  = Ret (Throw (runtime_error (status_message service response)), c).
Proof.
  intros Hs Hbad. unfold executeRequest, bind, this. cbn. rewrite Hs. cbn.
  destruct (Z.eqb_spec (getGeneralStatusCode response) SUCCESS) as [Heq | _];
    [contradiction | reflexivity].
Qed.

Lemma executeRequest_transport_failure c si service payload e :
  sessionInfo_ c = Some si ->
  after_send (executeRequest service payload c) (Throw e) = Ret (Throw e, c).
Proof. intros Hs. unfold executeRequest, bind, this. cbn. rewrite Hs. reflexivity. Qed.

(** A method that starts with [executeRequest] and goes on with [f]. *)
Lemma bind_executeRequest_no_session {A} c service payload
    (f : list Z -> method SessionInfo A) :
  sessionInfo_ c = None ->
  bind (executeRequest service payload) f c = Ret (Throw not_connected, c).
Proof.
  intros Hs. unfold bind at 1. rewrite executeRequest_no_session by exact Hs.
  reflexivity.
Qed.

Lemma bind_executeRequest_request {A} c si service payload
    (f : list Z -> method SessionInfo A) :
  sessionInfo_ c = Some si ->
  first_request (bind (executeRequest service payload) f c)
  = Some (mkRequest si service register_map payload).
Proof. intros Hs. unfold executeRequest, bind, this. cbn. rewrite Hs. reflexivity. Qed.

Lemma bind_executeRequest_success {A} c si service payload response
    (f : list Z -> method SessionInfo A) :
  sessionInfo_ c = Some si ->
  getGeneralStatusCode response = SUCCESS ->
  after_send (bind (executeRequest service payload) f c) (Return response)
  = f (getData response) c.
Proof.
  intros Hs Hok. unfold executeRequest, bind, this. cbn. rewrite Hs. cbn.
  rewrite Hok. reflexivity.
Qed.

Lemma bind_executeRequest_status {A} c si service payload response
    (f : list Z -> method SessionInfo A) :
  sessionInfo_ c = Some si ->
  getGeneralStatusCode response <> SUCCESS ->
  after_send (bind (executeRequest service payload) f c) (Return response)
  = Ret (Throw (runtime_error (status_message service response)), c).
Proof.
  intros Hs Hbad. unfold executeRequest, bind, this. cbn. rewrite Hs. cbn.
  destruct (Z.eqb_spec (getGeneralStatusCode response) SUCCESS) as [Heq | _];
    [contradiction | reflexivity].
Qed.

Lemma bind_executeRequest_transport_failure {A} c si service payload e
    (f : list Z -> method SessionInfo A) :
  sessionInfo_ c = Some si ->
  after_send (bind (executeRequest service payload) f c) (Throw e)
  = Ret (Throw e, c).
Proof. intros Hs. unfold executeRequest, bind, this. cbn. rewrite Hs. reflexivity. Qed.

(** Every request a method built on [executeRequest] can issue is the
    one [executeRequest] makes, provided what follows issues none. *)
Lemma issues_executeRequest c service payload q :
  issues (executeRequest service payload c) q ->
  exists si, sessionInfo_ c = Some si
             /\ q = mkRequest si service register_map payload.
Proof.
  unfold executeRequest, bind, this. cbn.
  destruct (sessionInfo_ c) as [si |] eqn:Hs; cbn; intros Hq.
  - exists si. split; [reflexivity |].
    inversion Hq as [ | ? ? ? ? ? r ? Hk | | | ]; subst.
    + reflexivity.
    + destruct r as [response | e]; cbn in Hk.
      * destruct (negb (getGeneralStatusCode response =? SUCCESS));
          inversion Hk.
      * inversion Hk.
  - inversion Hq.
Qed.
End MethodFacts.

(** ** The count passed by the write accessors *)

Lemma buildWritePayload_truncated {T : Type} `{Scalar32 T}
    (file element : Z) (values : list T) :
  buildWritePayload file element (data_bytes values)
    (static_cast_uint16 (size values))
  = buildReadPayload file element (size values mod 65536)
    ++ data_bytes (take (Z.to_nat (size values mod 65536)) values).
Proof.
  unfold static_cast_uint16.
  assert (Hn : 0 <= size values mod 65536 < 65536) by (apply Z.mod_pos_bound; lia).
  assert (Hle : size values mod 65536 <= size values).
  { apply Z.mod_le; unfold size; lia. }
  rewrite buildWritePayload_copy by (rewrite ?data_bytes_size; lia).
  f_equal.
  replace (Z.to_nat (size values mod 65536 * 4))
    with (4 * Z.to_nat (size values mod 65536))%nat by lia.
  apply data_bytes_take.
Qed.

Lemma count_field (file element count : Z) :
  is_uint16 count ->
  little_endian_to_Z 8 (drop 4 (buildReadPayload file element count)) = count.
Proof.
  intros Hc. rewrite buildReadPayload_fields, !little_endian_16.
  cbn [app drop]. rewrite <- little_endian_16.
  apply little_endian_16_value. exact Hc.
Qed.

Lemma buildWritePayload_data {T : Type} `{Scalar32 T}
    (file element : Z) (values : list T) :
  size values < 65536 ->
  drop 6 (buildWritePayload file element (data_bytes values)
            (static_cast_uint16 (size values)))
  = data_bytes values.
Proof.
  intros Hlen. rewrite buildWritePayload_truncated.
  rewrite <- (buildReadPayload_length file element (size values mod 65536)) at 1.
  rewrite drop_app_length. f_equal. apply take_ge.
  rewrite Z.mod_small by (unfold size in *; lia). unfold size. lia.
Qed.

(** ** The layout of the payloads *)

(** C1: for 16-bit [file], [element] and [count], [buildReadPayload]
    returns exactly six bytes: the three numbers in that order, each as a
    little-endian 16-bit field (so each field reads back as the number it
    was built from).  [buildReadPayload 57 30 1] is
    [0x39,0x00,0x1E,0x00,0x01,0x00].  No count is rejected or changed:
    the count field holds [count] for every 16-bit [count], 0 and 65535
    included. *)
Theorem C1_buildReadPayload_layout (file element count : Z) :
  is_uint16 file -> is_uint16 element -> is_uint16 count ->
  length (buildReadPayload file element count) = 6%nat
  /\ Forall is_uint8 (buildReadPayload file element count)
  /\ buildReadPayload file element count
     = Z_to_little_endian 2 8 file ++ Z_to_little_endian 2 8 element
       ++ Z_to_little_endian 2 8 count
  /\ little_endian_to_Z 8 (take 2 (buildReadPayload file element count)) = file
  /\ little_endian_to_Z 8 (take 2 (drop 2 (buildReadPayload file element count)))
     = element
  /\ little_endian_to_Z 8 (drop 4 (buildReadPayload file element count)) = count
  /\ buildReadPayload 57 30 1 = [0x39; 0x00; 0x1E; 0x00; 0x01; 0x00]
  /\ drop 4 (buildReadPayload file element 0) = [0x00; 0x00]
  /\ drop 4 (buildReadPayload file element 65535) = [0xFF; 0xFF].
Proof.
  intros Hf He Hc.
  split; [reflexivity |].
  split.
  { rewrite buildReadPayload_fields. rewrite !Forall_app.
    repeat split; apply (Z_to_little_endian_bound 2 8); lia. }
  split; [apply buildReadPayload_fields |].
  rewrite buildReadPayload_fields, !little_endian_16.
  cbn [app take drop].
  rewrite <- !little_endian_16.
  rewrite !little_endian_16_value by assumption.
  repeat split; reflexivity.
Qed.

Lemma C1_buildReadPayload_layout_witness :
  is_uint16 57 /\ is_uint16 30 /\ is_uint16 1
  /\ little_endian_to_Z 8 (drop 4 (buildReadPayload 57 30 1)) = 1.
Proof.
  assert (H57 : is_uint16 57) by (unfold is_uint16; lia).
  assert (H30 : is_uint16 30) by (unfold is_uint16; lia).
  assert (H1 : is_uint16 1) by (unfold is_uint16; lia).
  split; [exact H57 |]. split; [exact H30 |]. split; [exact H1 |].
  exact (proj1 (proj2 (proj2 (proj2 (proj2 (proj2
           (C1_buildReadPayload_layout 57 30 1 H57 H30 H1))))))).
Defined.

(** C2, as the code has it: for a value array of fewer than 65536
    elements (the count is a 16-bit parameter, and for such an array the
    count the write accessors pass is its length), the payload
    [buildWritePayload] builds from the array and its length has exactly
    [6 + 4 * len] bytes, starts with the header
    [buildReadPayload file element len], and continues with the
    little-endian 4-byte pattern of each value, in input order. *)
Theorem C2_buildWritePayload_layout {T : Type} `{Scalar32 T}
    (file element : Z) (values : list T) :
  size values < 65536 ->
  static_cast_uint16 (size values) = size values
  /\ size (buildWritePayload file element (data_bytes values)
             (static_cast_uint16 (size values)))
     = 6 + 4 * size values
  /\ take 6 (buildWritePayload file element (data_bytes values)
               (static_cast_uint16 (size values)))
     = buildReadPayload file element (size values)
  /\ drop 6 (buildWritePayload file element (data_bytes values)
               (static_cast_uint16 (size values)))
     = concat (map (fun v => Z_to_little_endian 4 8 (to_word v)) values).
Proof.
  intros Hlen.
  assert (Hcast : static_cast_uint16 (size values) = size values).
  { unfold static_cast_uint16. apply Z.mod_small. unfold size in *. lia. }
  rewrite Hcast. split; [reflexivity |].
  rewrite buildWritePayload_copy
    by (rewrite ?data_bytes_size; unfold size; lia).
  assert (Hall : take (Z.to_nat (size values * 4)) (data_bytes values)
                 = data_bytes values).
  { apply take_ge. rewrite data_bytes_length. unfold size. lia. }
  rewrite Hall.
  split.
  { unfold size. rewrite length_app, buildReadPayload_length, data_bytes_length. lia. }
  split.
  { rewrite <- (buildReadPayload_length file element (size values)) at 1.
    apply take_app_length. }
  rewrite <- (buildReadPayload_length file element (size values)) at 1.
  rewrite drop_app_length. apply data_bytes_little_endian.
Qed.

Lemma C2_buildWritePayload_layout_witness :
  size [Float 0x4048F5C3; Float 0x3F800000] < 65536
  /\ drop 6 (buildWritePayload 57 33
               (data_bytes [Float 0x4048F5C3; Float 0x3F800000])
               (static_cast_uint16 (size [Float 0x4048F5C3; Float 0x3F800000])))
     = concat (map (fun v => Z_to_little_endian 4 8 (to_word v))
                 [Float 0x4048F5C3; Float 0x3F800000]).
Proof.
  assert (Hlen : size [Float 0x4048F5C3; Float 0x3F800000] < 65536)
    by (vm_compute; reflexivity).
  split; [exact Hlen |].
  exact (proj2 (proj2 (proj2 (C2_buildWritePayload_layout 57 33
                                [Float 0x4048F5C3; Float 0x3F800000] Hlen)))).
Defined.

(** C2 as stated ("for every value array") fails: the payload built for
    an array of 65536 floats, with the count the write accessors pass for
    it, has 6 bytes and not 6 + 4 * 65536; and no 16-bit count gives the
    payload that length. *)
Lemma C2_counterexample_65536_values :
  size (buildWritePayload 57 33 (data_bytes (replicate (Z.to_nat 65536) (Float 0)))
          (static_cast_uint16 (size (replicate (Z.to_nat 65536) (Float 0)))))
  = 6
  /\ size (buildWritePayload 57 33 (data_bytes (replicate (Z.to_nat 65536) (Float 0)))
             (static_cast_uint16 (size (replicate (Z.to_nat 65536) (Float 0)))))
     <> 6 + 4 * size (replicate (Z.to_nat 65536) (Float 0))
  /\ ~ (exists count, is_uint16 count
         /\ size (buildWritePayload 57 33
                    (data_bytes (replicate (Z.to_nat 65536) (Float 0))) count)
            = 6 + 4 * size (replicate (Z.to_nat 65536) (Float 0))).
Proof.
  rewrite buildWritePayload_truncated, !size_replicate by lia.
  split; [reflexivity |]. split; [discriminate |].
  intros (count & Hc & Hsize). unfold is_uint16 in Hc.
  rewrite buildWritePayload_size in Hsize by lia. lia.
Qed.

(** ** Texts *)

Lemma append_cons (ch : Ascii.ascii) (a b : string) :
  String ch a +:+ b = String ch (a +:+ b).
Proof. reflexivity. Qed.

Lemma append_assoc (a b d : string) : (a +:+ b) +:+ d = a +:+ (b +:+ d).
Proof.
  induction a as [| ch a IH]; [reflexivity |].
  rewrite !append_cons, IH. reflexivity.
Qed.

Lemma append_empty_r (a : string) : a +:+ "" = a.
Proof.
  induction a as [| ch a IH]; [reflexivity |].
  rewrite append_cons, IH. reflexivity.
Qed.

Lemma contains_prefix (sub rest : string) : contains (sub +:+ rest) sub.
Proof. exists "", rest. reflexivity. Qed.

Lemma contains_after (a s sub : string) : contains s sub -> contains (a +:+ s) sub.
Proof.
  intros (before & after & ->). exists (a +:+ before), after.
  rewrite append_assoc. reflexivity.
Qed.

Lemma contains_before (s a sub : string) : contains s sub -> contains (s +:+ a) sub.
Proof.
  intros (before & after & ->). exists before, (after +:+ a).
  rewrite !append_assoc. reflexivity.
Qed.

Lemma print_additional_contains (additional : list Z) (i : nat) (w : Z) :
  w ∈ additional -> contains (print_additional i additional) ("0x" +:+ hex w).
Proof.
  revert i. induction additional as [| x rest IH]; intros i Hin.
  - inversion Hin.
  - cbn [print_additional]. apply contains_after.
    apply elem_of_cons in Hin as [-> | Hin].
    + rewrite <- append_assoc. apply contains_prefix.
    + apply (contains_after "0x"), contains_after, IH, Hin.
Qed.

Lemma status_message_status (service : Z) (response : MessageRouterResponse) :
  contains (status_message service response)
    ("status=0x" +:+ hex (getGeneralStatusCode response)).
Proof.
  unfold status_message.
  exists ("CIP request failed: service=0x" +:+ hex service +:+ " ").
  eexists. rewrite !append_assoc. reflexivity.
Qed.

Lemma status_message_additional (service : Z) (response : MessageRouterResponse) :
  Forall (fun w => contains (status_message service response) ("0x" +:+ hex w))
    (getAdditionalStatus response).
Proof.
  apply Forall_forall. intros w Hin. unfold status_message.
  do 4 apply contains_after.
  destruct (getAdditionalStatus response) as [| x rest] eqn:Hadd.
  - inversion Hin.
  - apply contains_after, contains_before.
    apply print_additional_contains. exact Hin.
Qed.

(** ** The typed accessors as trees *)

Section AccessorFacts.
Context {SessionInfo : Type}.
Implicit Types (c : RMC75EClient SessionInfo) (si : SessionInfo).

Lemma silent_ret {A} (a : A) : silent (Ret (SessionInfo := SessionInfo) a).
Proof. intros q Hq. inversion Hq. Qed.

Lemma silent_log_ret {A} level msg (a : A) :
  silent (Log (SessionInfo := SessionInfo) level msg (Ret a)).
Proof.
  intros q Hq. inversion Hq as [ | | | ? ? ? ? Hk | ]; subst. inversion Hk.
Qed.

(** The only request of a method made of [executeRequest] and a silent
    rest is the one of [executeRequest]. *)
Lemma issues_bind_executeRequest {A} c service payload
    (f : list Z -> method SessionInfo A) q :
  (forall raw c', silent (f raw c')) ->
  issues (bind (executeRequest service payload) f c) q ->
  exists si, sessionInfo_ c = Some si
             /\ q = mkRequest si service register_map payload.
Proof.
  intros Hf. unfold executeRequest, bind, this. cbn.
  destruct (sessionInfo_ c) as [si |] eqn:Hs; cbn; intros Hq.
  - exists si. split; [reflexivity |].
    inversion Hq as [ | ? ? ? ? ? r ? Hk | | | ]; subst.
    + reflexivity.
    + destruct r as [response | e]; cbn in Hk.
      * destruct (negb (getGeneralStatusCode response =? SUCCESS)); cbn in Hk.
        -- inversion Hk.
        -- exfalso. exact (Hf _ _ _ Hk).
      * inversion Hk.
  - inversion Hq.
Qed.

Lemma readFloat_unfold file element count :
  readFloat (SessionInfo := SessionInfo) file element count
  = bind (executeRequest SVC_READ_LSB (buildReadPayload file element count))
      (readFloat_rest file element count).
Proof. reflexivity. Qed.

Lemma readInt32_unfold file element count :
  readInt32 (SessionInfo := SessionInfo) file element count
  = bind (executeRequest SVC_READ_LSB (buildReadPayload file element count))
      (readInt32_rest file element count).
Proof. reflexivity. Qed.

Lemma readFloat_rest_silent file element count raw c :
  silent (readFloat_rest file element count raw c).
Proof.
  unfold readFloat_rest. destruct (size raw <? count * 4).
  - apply silent_ret.
  - apply silent_log_ret.
Qed.

Lemma readInt32_rest_silent file element count raw c :
  silent (readInt32_rest file element count raw c).
Proof.
  unfold readInt32_rest. destruct (size raw <? count * 4).
  - apply silent_ret.
  - apply silent_log_ret.
Qed.

End AccessorFacts.

(** ** Answers: size check and status check *)

(** C3: a connected client sends a [readFloat] or [readInt32] request with
    service 0x4B and the read header.  When the answer has status SUCCESS
    and fewer than [4 * count] data bytes, the accessor throws
    "<name>: expected <4*count> bytes, got <size>" and returns no values.
    When it has at least [4 * count] bytes, the accessor returns [count]
    values, the i-th being the little-endian 32-bit value of bytes
    [4i .. 4i+3]; bytes beyond the first [4 * count] do not matter. *)
Theorem C3_read_size_check {SessionInfo : Type}
    (c : RMC75EClient SessionInfo) (si : SessionInfo)
    (file element count : Z) (response : MessageRouterResponse) :
  sessionInfo_ c = Some si ->
  is_uint16 count ->
  getGeneralStatusCode response = SUCCESS ->
  (first_request (readFloat file element count c)
   = Some (mkRequest si SVC_READ_LSB register_map
             (buildReadPayload file element count))
   /\ first_request (readInt32 file element count c)
      = Some (mkRequest si SVC_READ_LSB register_map
                (buildReadPayload file element count)))
  /\ (size (getData response) < 4 * count ->
      after_send (readFloat file element count c) (Return response)
      = Ret (Throw (runtime_error
                      ("readFloat: expected " +:+ dec (4 * count)
                       +:+ " bytes, got " +:+ dec (size (getData response)))), c)
      /\ after_send (readInt32 file element count c) (Return response)
         = Ret (Throw (runtime_error
                         ("readInt32: expected " +:+ dec (4 * count)
                          +:+ " bytes, got " +:+ dec (size (getData response)))), c))
  /\ (4 * count <= size (getData response) ->
      exists (floats : list float) (ints : list int32_t) (note note' : string),
        after_send (readFloat file element count c) (Return response)
        = Log DEBUG note (Ret (Return floats, c))
        /\ after_send (readInt32 file element count c) (Return response)
           = Log DEBUG note' (Ret (Return ints, c))
        /\ size floats = count /\ size ints = count
        /\ (forall i : nat, (i < Z.to_nat count)%nat ->
              floats !! i
              = Some (Float (little_endian_to_Z 8
                               (take 4 (drop (4 * i) (getData response)))))
              /\ ints !! i
                 = Some (int32_of_word
                           (little_endian_to_Z 8
                              (take 4 (drop (4 * i) (getData response))))))
        /\ floats = vector_from_raw count
                      (take (Z.to_nat (4 * count)) (getData response))
        /\ ints = vector_from_raw count
                    (take (Z.to_nat (4 * count)) (getData response))).
Proof.
  intros Hs Hc Hok. unfold is_uint16 in Hc.
  rewrite readFloat_unfold, readInt32_unfold.
  rewrite !(bind_executeRequest_request c si) by exact Hs.
  rewrite !(bind_executeRequest_success c si) by assumption.
  unfold readFloat_rest, readInt32_rest.
  replace (count * 4) with (4 * count) by lia.
  split; [split; reflexivity |]. split.
  - intros Hshort.
    destruct (Z.ltb_spec (size (getData response)) (4 * count)) as [_ | Hge];
      [split; reflexivity | lia].
  - intros Hlong.
    destruct (Z.ltb_spec (size (getData response)) (4 * count)) as [Hlt | _];
      [lia |].
    eexists _, _, _, _.
    split; [reflexivity |]. split; [reflexivity |].
    rewrite !vector_from_raw_values by lia.
    split; [unfold size; rewrite values_of_bytes_length; lia |].
    split; [unfold size; rewrite values_of_bytes_length; lia |].
    split.
    { intros i Hi. split.
      - exact (values_of_bytes_lookup (T := float) _ _ _ Hi).
      - exact (values_of_bytes_lookup (T := int32_t) _ _ _ Hi). }
    assert (Htake : size (take (Z.to_nat (4 * count)) (getData response))
                    = 4 * count).
    { unfold size in *. rewrite length_take. lia. }
    rewrite !vector_from_raw_values by lia.
    replace (Z.to_nat (4 * count)) with (4 * Z.to_nat count)%nat by lia.
    rewrite !values_of_bytes_take. split; reflexivity.
Qed.

Lemma C3_read_size_check_witness :
  after_send (readFloat 57 30 2 (Mock.client (Some 7)))
    (Return (mkResponse SUCCESS [] [0xC3; 0xF5; 0x48; 0x40]))
  = Ret (Throw (runtime_error "readFloat: expected 8 bytes, got 4"),
         Mock.client (Some 7)).
Proof.
  assert (Hc : is_uint16 2) by (unfold is_uint16; lia).
  assert (Hshort : size (getData (mkResponse SUCCESS [] [0xC3; 0xF5; 0x48; 0x40]))
                   < 4 * 2) by (vm_compute; reflexivity).
  exact (proj1 (proj1 (proj2 (C3_read_size_check (Mock.client (Some 7)) 7 57 30 2
                                (mkResponse SUCCESS [] [0xC3; 0xF5; 0x48; 0x40])
                                eq_refl Hc eq_refl)) Hshort)).
Defined.

(** C4: on a connected client, [executeRequest] sends the given service
    code and payload to the Register Map Object.  When the answer's
    general status is SUCCESS it returns the answer's data bytes
    unchanged.  Otherwise it throws, returning no data; the text of the
    exception contains "status=0x<status in hex>" and "0x<word in hex>"
    for every additional status word.  The five accessors fail with the
    same exception. *)
Theorem C4_status_check {SessionInfo : Type}
    (c : RMC75EClient SessionInfo) (si : SessionInfo)
    (service : Z) (payload : list Z) (response : MessageRouterResponse) :
  sessionInfo_ c = Some si ->
  first_request (executeRequest service payload c)
  = Some (mkRequest si service register_map payload)
  /\ (getGeneralStatusCode response = SUCCESS ->
      after_send (executeRequest service payload c) (Return response)
      = Ret (Return (getData response), c))
  /\ (getGeneralStatusCode response <> SUCCESS ->
      after_send (executeRequest service payload c) (Return response)
      = Ret (Throw (runtime_error (status_message service response)), c)
      /\ contains (status_message service response)
           ("status=0x" +:+ hex (getGeneralStatusCode response))
      /\ Forall (fun w => contains (status_message service response)
                            ("0x" +:+ hex w))
           (getAdditionalStatus response)
      /\ (forall file element count,
            after_send (readFloat file element count c) (Return response)
            = Ret (Throw (runtime_error (status_message SVC_READ_LSB response)), c)
            /\ after_send (readInt32 file element count c) (Return response)
               = Ret (Throw (runtime_error (status_message SVC_READ_LSB response)), c))
      /\ (forall file element values,
            after_send (writeFloat file element values c) (Return response)
            = Ret (Throw (runtime_error (status_message SVC_WRITE_LSB response)), c))
      /\ (forall file element values,
            after_send (writeInt32 file element values c) (Return response)
            = Ret (Throw (runtime_error (status_message SVC_WRITE_LSB response)), c))
      /\ after_send (sendRawRequest service payload c) (Return response)
         = Ret (Throw (runtime_error (status_message service response)), c)).
Proof.
  intros Hs.
  split; [apply executeRequest_request; exact Hs |].
  split; [intros Hok; apply (executeRequest_success c si); assumption |].
  intros Hbad.
  split; [apply (executeRequest_status c si); assumption |].
  split; [apply status_message_status |].
  split; [apply status_message_additional |].
  split.
  { intros file element count. rewrite readFloat_unfold, readInt32_unfold.
    split; apply (bind_executeRequest_status c si); assumption. }
  split.
  { intros file element values. unfold writeFloat.
    apply (bind_executeRequest_status c si); assumption. }
  split.
  { intros file element values. unfold writeInt32.
    apply (bind_executeRequest_status c si); assumption. }
  unfold sendRawRequest. apply (executeRequest_status c si); assumption.
Qed.

Lemma C4_status_check_witness :
  after_send (executeRequest SVC_READ_LSB [57; 0; 30; 0; 1; 0] (Mock.client (Some 7)))
    (Return (mkResponse 8 [0x1234; 0xff] [1; 2; 3; 4]))
  = Ret (Throw (runtime_error
                  "CIP request failed: service=0x4b status=0x8 additional=[0x1234, 0xff]"),
         Mock.client (Some 7)).
Proof.
  assert (Hbad : getGeneralStatusCode (mkResponse 8 [0x1234; 0xff] [1; 2; 3; 4])
                 <> SUCCESS) by (vm_compute; discriminate).
  exact (proj1 (proj2 (proj2 (C4_status_check (Mock.client (Some 7)) 7 SVC_READ_LSB
                                [57; 0; 30; 0; 1; 0]
                                (mkResponse 8 [0x1234; 0xff] [1; 2; 3; 4])
                                eq_refl)) Hbad)).
Defined.

(** C5: with no session (a new client, a client after [disconnect()]),
    each of [readFloat], [writeFloat], [readInt32], [writeInt32] and
    [sendRawRequest] throws "Not connected - call connect() first"
    without calling eipScanner at all, so no request is issued. *)
Theorem C5_not_connected {SessionInfo : Type} (c : RMC75EClient SessionInfo) :
  sessionInfo_ c = None ->
  (forall file element count,
     readFloat file element count c = Ret (Throw not_connected, c)
     /\ readInt32 file element count c = Ret (Throw not_connected, c)
     /\ silent (readFloat file element count c)
     /\ silent (readInt32 file element count c))
  /\ (forall file element values,
        writeFloat file element values c = Ret (Throw not_connected, c)
        /\ silent (writeFloat file element values c))
  /\ (forall file element values,
        writeInt32 file element values c = Ret (Throw not_connected, c)
        /\ silent (writeInt32 file element values c))
  /\ (forall service data,
        sendRawRequest service data c = Ret (Throw not_connected, c)
        /\ silent (sendRawRequest service data c))
  /\ (forall (E : Transport SessionInfo) (w : World E) host port,
        sessionInfo_ (fst (run E (constructor host port) w)) = None)
  /\ (forall (E : Transport SessionInfo) (w : World E) c',
        sessionInfo_ (snd (fst (run E (disconnect c') w))) = None).
Proof.
  intros Hs.
  split.
  { intros file element count. rewrite readFloat_unfold, readInt32_unfold.
    rewrite !bind_executeRequest_no_session by exact Hs.
    repeat split; try reflexivity; apply silent_ret. }
  split.
  { intros file element values. unfold writeFloat.
    rewrite !bind_executeRequest_no_session by exact Hs.
    split; [reflexivity | apply silent_ret]. }
  split.
  { intros file element values. unfold writeInt32.
    rewrite !bind_executeRequest_no_session by exact Hs.
    split; [reflexivity | apply silent_ret]. }
  split.
  { intros service data. unfold sendRawRequest.
    rewrite !executeRequest_no_session by exact Hs.
    split; [reflexivity | apply silent_ret]. }
  split.
  { intros E w host port. reflexivity. }
  intros E w c'. unfold disconnect, bind, this, reset_sessionInfo. cbn.
  destruct (sessionInfo_ c') eqn:Hc'; cbn; rewrite ?Hc'; reflexivity.
Qed.

Lemma C5_not_connected_witness :
  readFloat 57 30 1 (Mock.client None) = Ret (Throw not_connected, Mock.client None).
Proof.
  exact (proj1 (proj1 (C5_not_connected (Mock.client None) eq_refl) 57 30 1)).
Defined.

(** ** Which requests are issued *)

Section Requests.
Context {SessionInfo : Type}.
Implicit Types (c : RMC75EClient SessionInfo) (q : Request SessionInfo).

Lemma connect_silent c : silent (connect c).
Proof.
  intros q. unfold connect, bind, try_catch, this. cbn.
  destruct (sessionInfo_ c) as [si |] eqn:Hs; cbn; intros Hq.
  - inversion Hq as [ | | | ? ? ? ? Hk | ]; subst. inversion Hk.
  - inversion Hq as [ | | ? ? ? r ? Hk | | ]; subst.
    destruct r as [si | e]; cbn in Hk.
    + inversion Hk as [ | | | ? ? ? ? Hk' | ]; subst. inversion Hk'.
    + unfold reset_sessionInfo in Hk. rewrite Hs in Hk. cbn in Hk. inversion Hk.
Qed.

Lemma disconnect_silent c : silent (disconnect c).
Proof.
  intros q. unfold disconnect, bind, this, reset_sessionInfo. cbn.
  destruct (sessionInfo_ c) as [si |] eqn:Hs; cbn; rewrite ?Hs; cbn; intros Hq.
  - inversion Hq as [ | | | ? ? ? ? Hk | ]; subst.
    inversion Hk as [ | | | | ? ? ? Hk']; subst. inversion Hk'.
  - inversion Hq.
Qed.

Lemma readFloat_issues file element count c q :
  issues (readFloat file element count c) q ->
  exists si, sessionInfo_ c = Some si
    /\ q = mkRequest si SVC_READ_LSB register_map
             (buildReadPayload file element count).
Proof.
  rewrite readFloat_unfold. apply issues_bind_executeRequest.
  intros raw c'. apply readFloat_rest_silent.
Qed.

Lemma readInt32_issues file element count c q :
  issues (readInt32 file element count c) q ->
  exists si, sessionInfo_ c = Some si
    /\ q = mkRequest si SVC_READ_LSB register_map
             (buildReadPayload file element count).
Proof.
  rewrite readInt32_unfold. apply issues_bind_executeRequest.
  intros raw c'. apply readInt32_rest_silent.
Qed.

Lemma writeFloat_issues file element (values : list float) c q :
  issues (writeFloat file element values c) q ->
  exists si, sessionInfo_ c = Some si
    /\ q = mkRequest si SVC_WRITE_LSB register_map
             (buildWritePayload file element (data_bytes values)
                (static_cast_uint16 (size values))).
Proof.
  unfold writeFloat. apply issues_bind_executeRequest.
  intros raw c'. apply silent_log_ret.
Qed.

Lemma writeInt32_issues file element (values : list int32_t) c q :
  issues (writeInt32 file element values c) q ->
  exists si, sessionInfo_ c = Some si
    /\ q = mkRequest si SVC_WRITE_LSB register_map
             (buildWritePayload file element (data_bytes values)
                (static_cast_uint16 (size values))).
Proof.
  unfold writeInt32. apply issues_bind_executeRequest.
  intros raw c'. apply silent_log_ret.
Qed.
End Requests.

(** C7: [sendRawRequest] is [executeRequest] on the same service code
    and payload, and on a connected client both reach [sendRequest]
    unchanged.  On a connected client [readFloat] and [readInt32] send
    their request with service 0x4B and [writeFloat] and [writeInt32]
    with 0x4C, so never with 0x4D or 0x4E.  Every request any public
    method issues, in any state, goes to class 0xC0, instance 0x01, on
    the client's session; [connect] and [disconnect] issue none. *)
Theorem C7_request_target {SessionInfo : Type} (c : RMC75EClient SessionInfo) :
  (forall service data,
     sendRawRequest service data c = executeRequest service data c)
  /\ (forall si, sessionInfo_ c = Some si ->
        (forall service data,
           first_request (sendRawRequest service data c)
           = Some (mkRequest si service (mkEPath 0xC0 0x01) data)
           /\ first_request (executeRequest service data c)
              = Some (mkRequest si service (mkEPath 0xC0 0x01) data))
        /\ (forall file element count,
              first_request (readFloat file element count c)
              = Some (mkRequest si 0x4B (mkEPath 0xC0 0x01)
                        (buildReadPayload file element count))
              /\ first_request (readInt32 file element count c)
                 = Some (mkRequest si 0x4B (mkEPath 0xC0 0x01)
                           (buildReadPayload file element count)))
        /\ (forall file element values,
              first_request (writeFloat file element values c)
              = Some (mkRequest si 0x4C (mkEPath 0xC0 0x01)
                        (buildWritePayload file element (data_bytes values)
                           (static_cast_uint16 (size values)))))
        /\ (forall file element values,
              first_request (writeInt32 file element values c)
              = Some (mkRequest si 0x4C (mkEPath 0xC0 0x01)
                        (buildWritePayload file element (data_bytes values)
                           (static_cast_uint16 (size values))))))
  /\ (forall (op : operation) (q : Request SessionInfo),
        op_issues op c q ->
        req_path q = mkEPath 0xC0 0x01
        /\ Some (req_session q) = sessionInfo_ c
        /\ match op with
           | OpReadFloat _ _ _ | OpReadInt32 _ _ _ =>
               req_service q = 0x4B
               /\ req_service q <> SVC_READ_MSB /\ req_service q <> SVC_WRITE_MSB
           | OpWriteFloat _ _ _ | OpWriteInt32 _ _ _ =>
               req_service q = 0x4C
               /\ req_service q <> SVC_READ_MSB /\ req_service q <> SVC_WRITE_MSB
           | OpSendRawRequest service data =>
               req_service q = service /\ req_data q = data
           | OpConnect | OpDisconnect => False
           end).
Proof.
  split; [reflexivity |]. split.
  - intros si Hs. split; [| split; [| split]].
    + intros service data. unfold sendRawRequest.
      rewrite (executeRequest_request c si) by exact Hs. split; reflexivity.
    + intros file element count. rewrite readFloat_unfold, readInt32_unfold.
      rewrite !(bind_executeRequest_request c si) by exact Hs.
      split; reflexivity.
    + intros file element values. unfold writeFloat.
      rewrite (bind_executeRequest_request c si) by exact Hs. reflexivity.
    + intros file element values. unfold writeInt32.
      rewrite (bind_executeRequest_request c si) by exact Hs. reflexivity.
  - intros op q.
    destruct op as [ | | file element count | file element values
                   | file element count | file element values | service data];
      cbn [op_issues]; intros Hq.
    + exfalso. exact (connect_silent c q Hq).
    + exfalso. exact (disconnect_silent c q Hq).
    + apply readFloat_issues in Hq as (si & Hs & ->). cbn.
      rewrite Hs. repeat split; discriminate.
    + apply writeFloat_issues in Hq as (si & Hs & ->). cbn.
      rewrite Hs. repeat split; discriminate.
    + apply readInt32_issues in Hq as (si & Hs & ->). cbn.
      rewrite Hs. repeat split; discriminate.
    + apply writeInt32_issues in Hq as (si & Hs & ->). cbn.
      rewrite Hs. repeat split; discriminate.
    + unfold sendRawRequest in Hq.
      apply issues_executeRequest in Hq as (si & Hs & ->). cbn.
      rewrite Hs. repeat split.
Qed.

Lemma C7_request_target_witness :
  first_request (sendRawRequest SVC_READ_MSB [1; 2; 3] (Mock.client (Some 7)))
  = Some (mkRequest 7 SVC_READ_MSB (mkEPath 0xC0 0x01) [1; 2; 3])
  /\ first_request (readInt32 57 32 1 (Mock.client (Some 7)))
     = Some (mkRequest 7 0x4B (mkEPath 0xC0 0x01) (buildReadPayload 57 32 1))
  /\ req_path (mkRequest 7 SVC_WRITE_LSB register_map
                 (buildWritePayload 57 33 (data_bytes [Float 0x4048F5C3]) 1))
     = mkEPath 0xC0 0x01.
Proof.
  split; [| split].
  - exact (proj1 (proj1 (proj1 (proj2 (C7_request_target (Mock.client (Some 7))))
                          7 eq_refl) SVC_READ_MSB [1; 2; 3])).
  - exact (proj2 (proj1 (proj2 (proj1 (proj2
             (C7_request_target (Mock.client (Some 7)))) 7 eq_refl)) 57 32 1)).
  - refine (proj1 (proj2 (proj2 (C7_request_target (Mock.client (Some 7))))
                     (OpWriteFloat 57 33 [Float 0x4048F5C3]) _ _)).
    cbn [op_issues]. unfold writeFloat, executeRequest, bind, this. cbn.
    apply issues_now.
Defined.

(** ** Long arrays *)

(** C10: [writeFloat] and [writeInt32] narrow the array length to 16
    bits.  On a connected client the request they issue carries, for
    every array, the header with count [len mod 65536] followed by the
    bytes of the first [len mod 65536] values only, [6 + 4 * (len mod
    65536)] bytes in all; nothing is rejected: on a SUCCESS answer the
    method logs and returns normally. *)
Theorem C10_write_count_truncation {SessionInfo : Type}
    (c : RMC75EClient SessionInfo) (si : SessionInfo) (file element : Z)
    (floats : list float) (ints : list int32_t) :
  sessionInfo_ c = Some si ->
  first_request (writeFloat file element floats c)
  = Some (mkRequest si SVC_WRITE_LSB register_map
            (buildReadPayload file element (size floats mod 65536)
             ++ data_bytes (take (Z.to_nat (size floats mod 65536)) floats)))
  /\ first_request (writeInt32 file element ints c)
     = Some (mkRequest si SVC_WRITE_LSB register_map
               (buildReadPayload file element (size ints mod 65536)
                ++ data_bytes (take (Z.to_nat (size ints mod 65536)) ints)))
  /\ little_endian_to_Z 8
       (drop 4 (buildReadPayload file element (size floats mod 65536)))
     = size floats mod 65536
  /\ little_endian_to_Z 8
       (drop 4 (buildReadPayload file element (size ints mod 65536)))
     = size ints mod 65536
  /\ size (buildWritePayload file element (data_bytes floats)
             (static_cast_uint16 (size floats)))
     = 6 + 4 * (size floats mod 65536)
  /\ size (buildWritePayload file element (data_bytes ints)
             (static_cast_uint16 (size ints)))
     = 6 + 4 * (size ints mod 65536)
  /\ (forall response, getGeneralStatusCode response = SUCCESS ->
        (exists note,
           after_send (writeFloat file element floats c) (Return response)
           = Log DEBUG note (Ret (Return tt, c)))
        /\ (exists note,
              after_send (writeInt32 file element ints c) (Return response)
              = Log DEBUG note (Ret (Return tt, c)))).
Proof.
  intros Hs.
  assert (Hf : 0 <= size floats mod 65536 < 65536) by (apply Z.mod_pos_bound; lia).
  assert (Hi : 0 <= size ints mod 65536 < 65536) by (apply Z.mod_pos_bound; lia).
  assert (Hfle : size floats mod 65536 <= size floats)
    by (apply Z.mod_le; unfold size; lia).
  assert (Hile : size ints mod 65536 <= size ints)
    by (apply Z.mod_le; unfold size; lia).
  unfold writeFloat, writeInt32.
  rewrite !(bind_executeRequest_request c si) by exact Hs.
  rewrite !buildWritePayload_truncated.
  split; [reflexivity |]. split; [reflexivity |].
  split; [apply count_field; exact Hf |].
  split; [apply count_field; exact Hi |].
  split.
  { unfold size at 1. rewrite length_app, buildReadPayload_length, data_bytes_length.
    rewrite length_take. unfold size in *. lia. }
  split.
  { unfold size at 1. rewrite length_app, buildReadPayload_length, data_bytes_length.
    rewrite length_take. unfold size in *. lia. }
  intros response Hok.
  rewrite !(bind_executeRequest_success c si) by assumption.
  split; eexists; reflexivity.
Qed.

Lemma C10_write_count_truncation_witness :
  first_request (writeFloat 57 33 [Float 0x4048F5C3] (Mock.client (Some 7)))
  = Some (mkRequest 7 SVC_WRITE_LSB register_map
            (buildReadPayload 57 33 (size [Float 0x4048F5C3] mod 65536)
             ++ data_bytes (take (Z.to_nat (size [Float 0x4048F5C3] mod 65536))
                              [Float 0x4048F5C3]))).
Proof.
  exact (proj1 (C10_write_count_truncation (Mock.client (Some 7)) 7 57 33
                  [Float 0x4048F5C3] [] eq_refl)).
Defined.

(** A long array at work: 65537 floats go out as a one-value write. *)
Example write_65537_floats :
  first_request (writeFloat 57 33 (Float 0x3F800000 :: replicate (Z.to_nat 65536) (Float 0))
                   (Mock.client (Some 7)))
  = Some (mkRequest 7 SVC_WRITE_LSB register_map
            [0x39; 0; 0x21; 0; 1; 0; 0x00; 0x00; 0x80; 0x3F]).
Proof. vm_compute. reflexivity. Qed.

(** ** Writing and reading back *)

(** C6, as the code has it: for an array of fewer than 65536 floats, the
    data bytes of the write payload (the bytes after the 6-byte header),
    decoded the way [readFloat] decodes an answer for as many values,
    give back the array, bit for bit; likewise for [int32_t] arrays and
    [readInt32]. *)
Theorem C6_write_read_round_trip {SessionInfo : Type}
    (c : RMC75EClient SessionInfo) (si : SessionInfo) (file element : Z)
    (floats : list float) (ints : list int32_t) (additional : list Z) :
  sessionInfo_ c = Some si ->
  size floats < 65536 -> Forall (fun f => is_uint32 (float_bits f)) floats ->
  size ints < 65536 -> Forall is_int32 ints ->
  vector_from_raw (size floats)
    (drop 6 (buildWritePayload file element (data_bytes floats)
               (static_cast_uint16 (size floats))))
  = floats
  /\ vector_from_raw (size ints)
       (drop 6 (buildWritePayload file element (data_bytes ints)
                  (static_cast_uint16 (size ints))))
     = ints
  /\ (exists note,
        after_send (readFloat file element (size floats) c)
          (Return (mkResponse SUCCESS additional
                     (drop 6 (buildWritePayload file element (data_bytes floats)
                                (static_cast_uint16 (size floats))))))
        = Log DEBUG note (Ret (Return floats, c)))
  /\ (exists note,
        after_send (readInt32 file element (size ints) c)
          (Return (mkResponse SUCCESS additional
                     (drop 6 (buildWritePayload file element (data_bytes ints)
                                (static_cast_uint16 (size ints))))))
        = Log DEBUG note (Ret (Return ints, c))).
Proof.
  intros Hs Hfl Hfv Hil Hiv.
  rewrite !buildWritePayload_data by assumption.
  assert (Hf : vector_from_raw (size floats) (data_bytes floats) = floats).
  { rewrite <- (app_nil_r (data_bytes floats)).
    apply (vector_from_raw_data (T := float)). exact Hfv. }
  assert (Hi : vector_from_raw (size ints) (data_bytes ints) = ints).
  { rewrite <- (app_nil_r (data_bytes ints)).
    apply (vector_from_raw_data (T := int32_t)). exact Hiv. }
  split; [exact Hf |]. split; [exact Hi |].
  rewrite readFloat_unfold, readInt32_unfold.
  rewrite !(bind_executeRequest_success c si) by (exact Hs || reflexivity).
  unfold readFloat_rest, readInt32_rest. cbn [getData].
  rewrite !data_bytes_size.
  destruct (Z.ltb_spec (4 * size floats) (size floats * 4)) as [Hlt | _]; [lia |].
  destruct (Z.ltb_spec (4 * size ints) (size ints * 4)) as [Hlt | _]; [lia |].
  split; eexists; unfold bind, Logger, ret; cbn; [rewrite Hf | rewrite Hi];
    reflexivity.
Qed.

Lemma C6_write_read_round_trip_witness :
  vector_from_raw (size [Float 0x4048F5C3; Float 0xFFC00001])
    (drop 6 (buildWritePayload 57 33 (data_bytes [Float 0x4048F5C3; Float 0xFFC00001])
               (static_cast_uint16 (size [Float 0x4048F5C3; Float 0xFFC00001]))))
  = [Float 0x4048F5C3; Float 0xFFC00001].
Proof.
  assert (Hfl : size [Float 0x4048F5C3; Float 0xFFC00001] < 65536)
    by (vm_compute; reflexivity).
  assert (Hil : size [-1; 2147483647; -2147483648] < 65536)
    by (vm_compute; reflexivity).
  assert (Hfv : Forall (fun f => is_uint32 (float_bits f))
                  [Float 0x4048F5C3; Float 0xFFC00001]).
  { repeat constructor; cbn; lia. }
  assert (Hiv : Forall is_int32 [-1; 2147483647; -2147483648]).
  { repeat constructor; unfold is_int32; lia. }
  exact (proj1 (C6_write_read_round_trip (Mock.client (Some 7)) 7 57 33
                  [Float 0x4048F5C3; Float 0xFFC00001]
                  [-1; 2147483647; -2147483648] [] eq_refl Hfl Hfv Hil Hiv)).
Defined.

(** C6 as stated ("for every float array") fails: of an array of 65536
    floats the write payload keeps no data byte, and no 16-bit count makes
    the read decoding return the array. *)
Lemma C6_counterexample_65536_floats :
  drop 6 (buildWritePayload 57 33
            (data_bytes (replicate (Z.to_nat 65536) (Float 0x3F800000)))
            (static_cast_uint16
               (size (replicate (Z.to_nat 65536) (Float 0x3F800000)))))
  = []
  /\ forall count, is_uint16 count ->
       vector_from_raw count
         (drop 6 (buildWritePayload 57 33
                    (data_bytes (replicate (Z.to_nat 65536) (Float 0x3F800000)))
                    (static_cast_uint16
                       (size (replicate (Z.to_nat 65536) (Float 0x3F800000))))))
       <> replicate (Z.to_nat 65536) (Float 0x3F800000).
Proof.
  assert (Hdata :
    drop 6 (buildWritePayload 57 33
              (data_bytes (replicate (Z.to_nat 65536) (Float 0x3F800000)))
              (static_cast_uint16
                 (size (replicate (Z.to_nat 65536) (Float 0x3F800000)))))
    = []).
  { rewrite buildWritePayload_truncated, size_replicate by lia. reflexivity. }
  split; [exact Hdata |].
  intros count Hc Heq. rewrite Hdata in Heq.
  apply (f_equal length) in Heq.
  unfold vector_from_raw, vector_n in Heq.
  rewrite values_of_bytes_length, !length_replicate in Heq.
  unfold is_uint16 in Hc. lia.
Qed.

(** ** Connecting and disconnecting *)

Section Lifecycle.
Context {SessionInfo : Type}.
Implicit Types (c : RMC75EClient SessionInfo) (si : SessionInfo).

Lemma same_fields c : sessionInfo_ c = None ->
  mkClient (plcAddress_ c) (port_ c) None = c.
Proof. destruct c as [host port s]. cbn. intros ->. reflexivity. Qed.

Lemma connect_again c si :
  sessionInfo_ c = Some si ->
  connect c = Log WARNING "Already connected" (Ret (Return tt, c)).
Proof. intros Hs. unfold connect, bind, this. cbn. rewrite Hs. reflexivity. Qed.

Lemma connect_attempt c :
  sessionInfo_ c = None ->
  first_session (connect c) = Some (plcAddress_ c, port_ c).
Proof. intros Hs. unfold connect, bind, this. cbn. rewrite Hs. reflexivity. Qed.

Lemma connect_established c si :
  sessionInfo_ c = None ->
  after_session (connect c) (Return si)
  = Log INFO ("Connected to RMC75E at " +:+ plcAddress_ c)
      (Ret (Return tt, mkClient (plcAddress_ c) (port_ c) (Some si))).
Proof. intros Hs. unfold connect, bind, this. cbn. rewrite Hs. reflexivity. Qed.

Lemma connect_refused c e :
  sessionInfo_ c = None ->
  after_session (connect c) (Throw e)
  = Ret (Throw (runtime_error ("Failed to connect to RMC75E at "
                               +:+ plcAddress_ c +:+ ": " +:+ what e)), c).
Proof.
  intros Hs. unfold connect, bind, this. cbn. rewrite Hs. cbn.
  unfold reset_sessionInfo. rewrite Hs. cbn.
  rewrite same_fields by exact Hs. reflexivity.
Qed.

Lemma disconnect_open c si :
  sessionInfo_ c = Some si ->
  disconnect c
  = Log INFO "Disconnecting from RMC75E"
      (ReleaseSession si
         (Ret (Return tt, mkClient (plcAddress_ c) (port_ c) None))).
Proof.
  intros Hs. unfold disconnect, bind, this. cbn. rewrite Hs. cbn.
  unfold reset_sessionInfo. rewrite Hs. reflexivity.
Qed.

Lemma disconnect_again c :
  sessionInfo_ c = None -> disconnect c = Ret (Return tt, c).
Proof. intros Hs. unfold disconnect, bind, this. cbn. rewrite Hs. reflexivity. Qed.

Lemma run_connect (E : Transport SessionInfo) (w : World E) c :
  run E (connect c) w
  = match sessionInfo_ c with
    | Some _ => ((Return tt, c), write_log E WARNING "Already connected" w)
    | None =>
        match fst (open_session E (plcAddress_ c) (port_ c) w) with
        | Return si =>
            ((Return tt, mkClient (plcAddress_ c) (port_ c) (Some si)),
             write_log E INFO ("Connected to RMC75E at " +:+ plcAddress_ c)
               (snd (open_session E (plcAddress_ c) (port_ c) w)))
        | Throw e =>
            ((Throw (runtime_error ("Failed to connect to RMC75E at "
                                    +:+ plcAddress_ c +:+ ": " +:+ what e)), c),
             snd (open_session E (plcAddress_ c) (port_ c) w))
        end
    end.
Proof.
  destruct (sessionInfo_ c) as [si |] eqn:Hs.
  - rewrite (connect_again c si) by exact Hs. reflexivity.
  - pose proof (connect_attempt c Hs) as Hfirst.
    pose proof (connect_established c) as Hok.
    pose proof (connect_refused c) as Hbad.
    destruct (connect c) as [a | host port k | ? ? ? ? k | ? ? k | ? k];
      try discriminate Hfirst.
    cbn in Hfirst, Hok, Hbad. injection Hfirst as -> ->. cbn [run].
    destruct (fst (open_session E (plcAddress_ c) (port_ c) w)) as [si | e].
    + rewrite Hok by exact Hs. reflexivity.
    + rewrite Hbad by exact Hs. reflexivity.
Qed.

Lemma run_disconnect (E : Transport SessionInfo) (w : World E) c :
  run E (disconnect c) w
  = match sessionInfo_ c with
    | Some si => ((Return tt, mkClient (plcAddress_ c) (port_ c) None),
                  release_session E si
                    (write_log E INFO "Disconnecting from RMC75E" w))
    | None => ((Return tt, c), w)
    end.
Proof.
  destruct (sessionInfo_ c) as [si |] eqn:Hs.
  - rewrite (disconnect_open c si) by exact Hs. reflexivity.
  - rewrite disconnect_again by exact Hs. reflexivity.
Qed.

(** What one call does to [isConnected()], in terms of the call and its
    outcome. *)
Lemma invoke_step (E : Transport SessionInfo) (w : World E) c k :
  isConnected (snd (fst (run E (invoke k c) w)))
  = if changes_state (isConnected c) k (fst (fst (run E (invoke k c) w)))
    then negb (isConnected c)
    else isConnected c.
Proof.
  destruct k; cbn [invoke].
  - rewrite run_connect. unfold isConnected.
    destruct (sessionInfo_ c) as [si |] eqn:Hs; cbn; [rewrite Hs; reflexivity |].
    destruct (fst (open_session E (plcAddress_ c) (port_ c) w)) as [si | e];
      cbn; rewrite ?Hs; reflexivity.
  - rewrite run_disconnect. unfold isConnected.
    destruct (sessionInfo_ c) as [si |] eqn:Hs; cbn; rewrite ?Hs; reflexivity.
Qed.

Lemma run_calls_last (E : Transport SessionInfo) (calls : list lifecycle_call) :
  forall c (w : World E) (last : option lifecycle_call) (initially : bool),
    match last with
    | Some CallConnect => isConnected c = true
    | Some CallDisconnect => isConnected c = false
    | None => isConnected c = initially
    end ->
    isConnected (fst (run_calls E calls c w))
    = match last_change (isConnected c) (outcomes E calls c w) last with
      | Some CallConnect => true
      | Some CallDisconnect => false
      | None => initially
      end.
Proof.
  induction calls as [| k rest IH]; intros c w last initially Hlast.
  - cbn. destruct last as [[|] |]; exact Hlast.
  - cbn [run_calls outcomes last_change].
    pose proof (invoke_step E w c k) as Hstep.
    destruct (changes_state (isConnected c) k (fst (fst (run E (invoke k c) w))))
      eqn:Hchange.
    + cbv iota in Hstep. rewrite <- Hstep. apply IH. rewrite Hstep.
      destruct k; cbn [invoke changes_state] in Hchange.
      * destruct (fst (fst (run E (connect c) w)));
          [exact Hchange | discriminate Hchange].
      * rewrite Hchange. reflexivity.
    + cbv iota in Hstep. rewrite <- Hstep. apply IH. rewrite Hstep. exact Hlast.
Qed.
End Lifecycle.

(** C8: [connect()] on a connected client only logs "Already
    connected": it opens no session and leaves the client, session
    included, as it was.  [disconnect()] on a disconnected client does
    nothing at all.  On a disconnected client [connect()] returns
    normally exactly when the session could be opened, and then holds
    that session; on a connected client [disconnect()] returns normally
    and leaves it disconnected.  After any sequence of the two calls on
    any transport, [isConnected()] is true exactly when the last
    successful state-changing call (a [connect()] made while disconnected
    that returned normally, a [disconnect()] made while connected) was a
    [connect()]; it is what it was at the start when there is none. *)
Theorem C8_connect_disconnect_idempotent {SessionInfo : Type}
    (E : Transport SessionInfo) (w : World E) (c : RMC75EClient SessionInfo)
    (calls : list lifecycle_call) :
  (isConnected c = true ->
     connect c = Log WARNING "Already connected" (Ret (Return tt, c))
     /\ run E (connect c) w
        = ((Return tt, c), write_log E WARNING "Already connected" w)
     /\ isConnected (snd (fst (run E (connect c) w))) = true)
  /\ (isConnected c = false ->
        disconnect c = Ret (Return tt, c)
        /\ run E (disconnect c) w = ((Return tt, c), w)
        /\ isConnected (snd (fst (run E (disconnect c) w))) = false)
  /\ (isConnected c = false ->
        (fst (fst (run E (connect c) w)) = Return tt
         <-> exists si, fst (open_session E (plcAddress_ c) (port_ c) w)
                        = Return si)
        /\ forall si,
             fst (open_session E (plcAddress_ c) (port_ c) w) = Return si ->
             sessionInfo_ (snd (fst (run E (connect c) w))) = Some si
             /\ isConnected (snd (fst (run E (connect c) w))) = true)
  /\ (isConnected c = true ->
        fst (fst (run E (disconnect c) w)) = Return tt
        /\ sessionInfo_ (snd (fst (run E (disconnect c) w))) = None
        /\ isConnected (snd (fst (run E (disconnect c) w))) = false)
  /\ isConnected (fst (run_calls E calls c w))
     = match last_change (isConnected c) (outcomes E calls c w) None with
       | Some CallConnect => true
       | Some CallDisconnect => false
       | None => isConnected c
       end
  /\ (isConnected c = false ->
        (isConnected (fst (run_calls E calls c w)) = true
         <-> last_change false (outcomes E calls c w) None = Some CallConnect)).
Proof.
  assert (Hlast : isConnected (fst (run_calls E calls c w))
                  = match last_change (isConnected c) (outcomes E calls c w) None with
                    | Some CallConnect => true
                    | Some CallDisconnect => false
                    | None => isConnected c
                    end)
    by (apply run_calls_last; reflexivity).
  split; [| split; [| split; [| split; [| split; [exact Hlast |]]]]].
  - unfold isConnected. destruct (sessionInfo_ c) as [si |] eqn:Hs; [| discriminate].
    intros _. rewrite (connect_again c si) by exact Hs. cbn. rewrite Hs.
    repeat split.
  - unfold isConnected. destruct (sessionInfo_ c) as [si |] eqn:Hs; [discriminate |].
    intros _. rewrite disconnect_again by exact Hs. cbn. rewrite Hs.
    repeat split.
  - unfold isConnected. rewrite run_connect.
    destruct (sessionInfo_ c) as [si0 |] eqn:Hs; [discriminate |]. intros _.
    destruct (fst (open_session E (plcAddress_ c) (port_ c) w)) as [si | e];
      cbn; split.
    + split; [intros _; exists si; reflexivity | reflexivity].
    + intros si' [= <-]. split; reflexivity.
    + split; [discriminate | intros (si & Hsi); discriminate Hsi].
    + intros si' Hsi'. discriminate Hsi'.
  - unfold isConnected. rewrite run_disconnect.
    destruct (sessionInfo_ c) as [si |] eqn:Hs; [| discriminate].
    intros _. repeat split.
  - intros Hidle. rewrite Hlast, Hidle.
    destruct (last_change false (outcomes E calls c w) None) as [[|] |];
      split; (reflexivity || discriminate).
Qed.

Lemma C8_connect_disconnect_idempotent_witness :
  isConnected
    (fst (run_calls Mock.transport
            [CallConnect; CallConnect; CallDisconnect; CallDisconnect; CallConnect]
            (Mock.client None) (Mock.mkWorld [Return 7; Return 8] [] [] [])))
  = true
  /\ isConnected
       (fst (run_calls Mock.transport
               [CallConnect; CallConnect; CallDisconnect; CallDisconnect; CallConnect]
               (Mock.client None) (Mock.mkWorld [Return 7] [] [] [])))
     = false
  /\ sessionInfo_
       (snd (fst (run Mock.transport (connect (Mock.client None))
                    (Mock.mkWorld [Return 7] [] [] []))))
     = Some 7.
Proof.
  split; [| split].
  - exact (proj1 (proj2 (proj2 (proj2 (proj2
      (C8_connect_disconnect_idempotent Mock.transport
         (Mock.mkWorld [Return 7; Return 8] [] [] []) (Mock.client None)
         [CallConnect; CallConnect; CallDisconnect; CallDisconnect;
          CallConnect])))))).
  - exact (proj1 (proj2 (proj2 (proj2 (proj2
      (C8_connect_disconnect_idempotent Mock.transport
         (Mock.mkWorld [Return 7] [] [] []) (Mock.client None)
         [CallConnect; CallConnect; CallDisconnect; CallDisconnect;
          CallConnect])))))).
  - exact (proj1 (proj2 (proj1 (proj2 (proj2
      (C8_connect_disconnect_idempotent Mock.transport
         (Mock.mkWorld [Return 7] [] [] []) (Mock.client None) []))) eq_refl)
      7 eq_refl)).
Defined.

(** C9: when [connect()] throws, on any transport, it is the opening of
    the session that threw; the exception wraps that failure; the client
    is as before the call, with no session, so [isConnected()] is false
    and the next [connect()] starts by opening a session again. *)
Theorem C9_connect_failure {SessionInfo : Type}
    (E : Transport SessionInfo) (w : World E) (c : RMC75EClient SessionInfo)
    (e : exception) :
  fst (fst (run E (connect c) w)) = Throw e ->
  snd (fst (run E (connect c) w)) = c
  /\ sessionInfo_ (snd (fst (run E (connect c) w))) = None
  /\ isConnected (snd (fst (run E (connect c) w))) = false
  /\ first_session (connect (snd (fst (run E (connect c) w))))
     = Some (plcAddress_ c, port_ c)
  /\ (exists cause,
        fst (open_session E (plcAddress_ c) (port_ c) w) = Throw cause
        /\ e = runtime_error ("Failed to connect to RMC75E at "
                              +:+ plcAddress_ c +:+ ": " +:+ what cause)).
Proof.
  rewrite run_connect.
  destruct (sessionInfo_ c) as [si |] eqn:Hs; [discriminate |].
  destruct (fst (open_session E (plcAddress_ c) (port_ c) w)) as [si | cause];
    [discriminate |].
  cbn. intros [= <-].
  split; [reflexivity |]. split; [exact Hs |].
  split; [unfold isConnected; rewrite Hs; reflexivity |].
  split; [apply connect_attempt; exact Hs |].
  exists cause. split; reflexivity.
Qed.

Lemma C9_connect_failure_witness :
  isConnected
    (snd (fst (run Mock.transport (connect (Mock.client None))
                 (Mock.mkWorld [] [] [] []))))
  = false.
Proof.
  exact (proj1 (proj2 (proj2
    (C9_connect_failure Mock.transport (Mock.mkWorld [] [] [] []) (Mock.client None)
       (runtime_error
          "Failed to connect to RMC75E at 192.168.17.200: connection refused")
       eq_refl)))).
Defined.

(** * Further properties of the client *)

(** ** Outcomes that hold on every run *)

Section Always.
Context {SessionInfo : Type}.
Implicit Types (c : RMC75EClient SessionInfo) (si : SessionInfo).

Lemma always_run {A} (P : A -> Prop) (p : io SessionInfo A)
    (E : Transport SessionInfo) :
  always P p -> forall w : World E, P (fst (run E p w)).
Proof.
  induction p as [a | host port k IH | s service path data k IH | level msg k IH
                 | s k IH];
    cbn [always run]; intros Hp w.
  - exact Hp.
  - apply IH, Hp.
  - apply IH, Hp.
  - apply IH, Hp.
  - apply IH, Hp.
Qed.

Lemma always_io_bind {A B} (P : A -> Prop) (Q : B -> Prop)
    (p : io SessionInfo A) (f : A -> io SessionInfo B) :
  always P p -> (forall a, P a -> always Q (f a)) -> always Q (io_bind p f).
Proof.
  intros Hp Hf.
  induction p as [a | host port k IH | s service path data k IH | level msg k IH
                 | s k IH];
    cbn [always io_bind] in *.
  - apply Hf, Hp.
  - intros r. apply IH, Hp.
  - intros r. apply IH, Hp.
  - apply IH, Hp.
  - apply IH, Hp.
Qed.

Lemma always_weaken {A} (P Q : A -> Prop) (p : io SessionInfo A) :
  (forall a, P a -> Q a) -> always P p -> always Q p.
Proof.
  intros HPQ.
  induction p as [a | host port k IH | s service path data k IH | level msg k IH
                 | s k IH];
    cbn [always]; intros Hp.
  - apply HPQ, Hp.
  - intros r. apply IH, Hp.
  - intros r. apply IH, Hp.
  - apply IH, Hp.
  - apply IH, Hp.
Qed.

(** [executeRequest] leaves the fields alone. *)
Lemma executeRequest_keeps_state c service payload :
  always (fun out => snd out = c) (executeRequest service payload c).
Proof.
  unfold executeRequest, bind, this. cbn.
  destruct (sessionInfo_ c) as [si |]; cbn; [| reflexivity].
  intros [response | e]; cbn; [| reflexivity].
  destruct (negb (getGeneralStatusCode response =? SUCCESS)); reflexivity.
Qed.

Lemma bind_executeRequest_keeps_state {A} c service payload
    (f : list Z -> method SessionInfo A) :
  (forall raw, always (fun out => snd out = c) (f raw c)) ->
  always (fun out => snd out = c) (bind (executeRequest service payload) f c).
Proof.
  intros Hf. unfold bind.
  apply (always_io_bind (fun out => snd out = c)).
  - apply executeRequest_keeps_state.
  - intros [[raw | e] c'] Hc'; cbn in Hc'; subst c'; cbn.
    + apply Hf.
    + reflexivity.
Qed.

Lemma readFloat_rest_keeps_state file element count raw c :
  always (fun out => snd out = c) (readFloat_rest file element count raw c).
Proof. unfold readFloat_rest. destruct (size raw <? count * 4); reflexivity. Qed.

Lemma readInt32_rest_keeps_state file element count raw c :
  always (fun out => snd out = c) (readInt32_rest file element count raw c).
Proof. unfold readInt32_rest. destruct (size raw <? count * 4); reflexivity. Qed.

(** After its request, a method built on [executeRequest] and a silent
    rest sends nothing more. *)
Lemma after_send_silent {A} c si service payload
    (f : list Z -> method SessionInfo A) r :
  sessionInfo_ c = Some si ->
  (forall raw c', silent (f raw c')) ->
  silent (after_send (bind (executeRequest service payload) f c) r).
Proof.
  intros Hs Hf. destruct r as [response | e].
  - destruct (Z.eq_dec (getGeneralStatusCode response) SUCCESS) as [Hok | Hbad].
    + rewrite (bind_executeRequest_success c si) by assumption. apply Hf.
    + rewrite (bind_executeRequest_status c si) by assumption. apply silent_ret.
  - rewrite (bind_executeRequest_transport_failure c si) by assumption.
    apply silent_ret.
Qed.
End Always.

(** X1: when [sendRequest] itself throws (network failure, timeout), a
    connected client's [executeRequest] and each of the five accessors
    throw that very exception, unwrapped, log nothing and keep the
    client as it was. *)
Theorem transport_failure_propagates {SessionInfo : Type}
    (c : RMC75EClient SessionInfo) (si : SessionInfo) (e : exception) :
  sessionInfo_ c = Some si ->
  (forall service payload,
     after_send (executeRequest service payload c) (Throw e) = Ret (Throw e, c)
     /\ after_send (sendRawRequest service payload c) (Throw e) = Ret (Throw e, c))
  /\ (forall file element count,
        after_send (readFloat file element count c) (Throw e) = Ret (Throw e, c)
        /\ after_send (readInt32 file element count c) (Throw e) = Ret (Throw e, c))
  /\ (forall file element values,
        after_send (writeFloat file element values c) (Throw e) = Ret (Throw e, c))
  /\ (forall file element values,
        after_send (writeInt32 file element values c) (Throw e) = Ret (Throw e, c)).
Proof.
  intros Hs. split; [| split; [| split]].
  - intros service payload. unfold sendRawRequest.
    split; apply (executeRequest_transport_failure c si); exact Hs.
  - intros file element count. rewrite readFloat_unfold, readInt32_unfold.
    split; apply (bind_executeRequest_transport_failure c si); exact Hs.
  - intros file element values. unfold writeFloat.
    apply (bind_executeRequest_transport_failure c si); exact Hs.
  - intros file element values. unfold writeInt32.
    apply (bind_executeRequest_transport_failure c si); exact Hs.
Qed.

Lemma transport_failure_propagates_witness :
  after_send (writeFloat 57 33 [Float 0x4048F5C3] (Mock.client (Some 7)))
    (Throw Mock.timed_out)
  = Ret (Throw Mock.timed_out, Mock.client (Some 7)).
Proof.
  exact (proj1 (proj2 (proj2
    (transport_failure_propagates (Mock.client (Some 7)) 7 Mock.timed_out eq_refl)))
    57 33 [Float 0x4048F5C3]).
Defined.

(** X2: no register operation ever changes the client: on every
    transport and whatever the outcome (values, a status error, a size
    mismatch, a transport failure, not connected), the address, the port
    and the session after [readFloat], [writeFloat], [readInt32],
    [writeInt32] or [sendRawRequest] are those before.  In particular a
    failed operation does not drop the session. *)
Theorem register_operations_keep_client {SessionInfo : Type}
    (E : Transport SessionInfo) (w : World E) (c : RMC75EClient SessionInfo) :
  (forall file element count,
     snd (fst (run E (readFloat file element count c) w)) = c
     /\ snd (fst (run E (readInt32 file element count c) w)) = c)
  /\ (forall file element values,
        snd (fst (run E (writeFloat file element values c) w)) = c)
  /\ (forall file element values,
        snd (fst (run E (writeInt32 file element values c) w)) = c)
  /\ (forall service data,
        snd (fst (run E (sendRawRequest service data c) w)) = c
        /\ snd (fst (run E (executeRequest service data c) w)) = c).
Proof.
  split; [| split; [| split]].
  - intros file element count. rewrite readFloat_unfold, readInt32_unfold. split.
    + apply (always_run (fun out => snd out = c)).
      apply bind_executeRequest_keeps_state. intros raw.
      apply readFloat_rest_keeps_state.
    + apply (always_run (fun out => snd out = c)).
      apply bind_executeRequest_keeps_state. intros raw.
      apply readInt32_rest_keeps_state.
  - intros file element values. unfold writeFloat.
    apply (always_run (fun out => snd out = c)).
    apply bind_executeRequest_keeps_state. intros raw. reflexivity.
  - intros file element values. unfold writeInt32.
    apply (always_run (fun out => snd out = c)).
    apply bind_executeRequest_keeps_state. intros raw. reflexivity.
  - intros service data. unfold sendRawRequest.
    split; apply (always_run (fun out => snd out = c));
      apply executeRequest_keeps_state.
Qed.

(** X3: a register operation talks to the device at most once.  On a
    connected client each of the five operations starts with one request,
    and whatever comes back (data, a failing status, an exception) it
    sends nothing more: there is no retry. *)
Theorem one_request_no_retry {SessionInfo : Type}
    (c : RMC75EClient SessionInfo) (si : SessionInfo)
    (r : result MessageRouterResponse) :
  sessionInfo_ c = Some si ->
  (forall file element count,
     first_request (readFloat file element count c) <> None
     /\ silent (after_send (readFloat file element count c) r)
     /\ first_request (readInt32 file element count c) <> None
     /\ silent (after_send (readInt32 file element count c) r))
  /\ (forall file element values,
        first_request (writeFloat file element values c) <> None
        /\ silent (after_send (writeFloat file element values c) r))
  /\ (forall file element values,
        first_request (writeInt32 file element values c) <> None
        /\ silent (after_send (writeInt32 file element values c) r))
  /\ (forall service data,
        first_request (sendRawRequest service data c) <> None
        /\ silent (after_send (sendRawRequest service data c) r)).
Proof.
  intros Hs. split; [| split; [| split]].
  - intros file element count. rewrite readFloat_unfold, readInt32_unfold.
    rewrite !(bind_executeRequest_request c si) by exact Hs.
    repeat split; try discriminate.
    + apply (after_send_silent c si); [exact Hs |].
      intros raw c'. apply readFloat_rest_silent.
    + apply (after_send_silent c si); [exact Hs |].
      intros raw c'. apply readInt32_rest_silent.
  - intros file element values. unfold writeFloat.
    rewrite (bind_executeRequest_request c si) by exact Hs.
    split; [discriminate |].
    apply (after_send_silent c si); [exact Hs |].
    intros raw c'. apply silent_log_ret.
  - intros file element values. unfold writeInt32.
    rewrite (bind_executeRequest_request c si) by exact Hs.
    split; [discriminate |].
    apply (after_send_silent c si); [exact Hs |].
    intros raw c'. apply silent_log_ret.
  - intros service data. unfold sendRawRequest.
    rewrite (executeRequest_request c si) by exact Hs.
    split; [discriminate |].
    destruct r as [response | e].
    + destruct (Z.eq_dec (getGeneralStatusCode response) SUCCESS) as [Hok | Hbad].
      * rewrite (executeRequest_success c si) by assumption. apply silent_ret.
      * rewrite (executeRequest_status c si) by assumption. apply silent_ret.
    + rewrite (executeRequest_transport_failure c si) by assumption.
      apply silent_ret.
Qed.

Lemma one_request_no_retry_witness :
  silent (after_send (readFloat 57 30 1 (Mock.client (Some 7)))
            (Return (mkResponse 8 [] []))).
Proof.
  exact (proj1 (proj2 (proj1
    (one_request_no_retry (Mock.client (Some 7)) 7 (Return (mkResponse 8 [] []))
       eq_refl) 57 30 1))).
Defined.

(** ** The life of a client *)

Section LifecycleFacts.
Context {SessionInfo : Type}.
Implicit Types (c : RMC75EClient SessionInfo) (si : SessionInfo).

Lemma invoke_keeps_address (E : Transport SessionInfo) (w : World E) c k :
  plcAddress_ (snd (fst (run E (invoke k c) w))) = plcAddress_ c
  /\ port_ (snd (fst (run E (invoke k c) w))) = port_ c.
Proof.
  destruct k; cbn [invoke].
  - rewrite run_connect. destruct (sessionInfo_ c); [split; reflexivity |].
    destruct (fst (open_session E (plcAddress_ c) (port_ c) w));
      split; reflexivity.
  - rewrite run_disconnect. destruct (sessionInfo_ c); split; reflexivity.
Qed.

Lemma run_calls_keeps_address (E : Transport SessionInfo)
    (calls : list lifecycle_call) :
  forall c (w : World E),
    plcAddress_ (fst (run_calls E calls c w)) = plcAddress_ c
    /\ port_ (fst (run_calls E calls c w)) = port_ c.
Proof.
  induction calls as [| k rest IH]; intros c w; [split; reflexivity |].
  cbn [run_calls].
  destruct (IH (snd (fst (run E (invoke k c) w))) (snd (run E (invoke k c) w)))
    as [Ha Hp].
  destruct (invoke_keeps_address E w c k) as [Ha' Hp'].
  rewrite Ha, Hp, Ha', Hp'. split; reflexivity.
Qed.
End LifecycleFacts.

(** X4: the address and the port given to the constructor stay with the
    client for good: after any sequence of [connect()] and [disconnect()]
    calls on any transport, failed connects included, both fields are
    unchanged, so whenever the client then opens a session it opens it to
    the constructor's host and port.  A new client is not connected. *)
Theorem address_and_port_fixed {SessionInfo : Type}
    (E : Transport SessionInfo) (w0 w : World E) (host : string) (port : Z)
    (calls : list lifecycle_call) :
  isConnected (fst (run E (constructor host port) w0)) = false
  /\ plcAddress_ (fst (run_calls E calls (fst (run E (constructor host port) w0)) w))
     = host
  /\ port_ (fst (run_calls E calls (fst (run E (constructor host port) w0)) w))
     = port
  /\ (isConnected
        (fst (run_calls E calls (fst (run E (constructor host port) w0)) w))
      = false ->
      first_session
        (connect (fst (run_calls E calls (fst (run E (constructor host port) w0)) w)))
      = Some (host, port)).
Proof.
  destruct (run_calls_keeps_address E calls
              (fst (run E (constructor host port) w0)) w) as [Ha Hp].
  split; [reflexivity |]. split; [exact Ha |]. split; [exact Hp |].
  unfold isConnected. intros Hidle.
  destruct (sessionInfo_ (fst (run_calls E calls
              (fst (run E (constructor host port) w0)) w))) as [si |] eqn:Hs;
    [discriminate |].
  rewrite connect_attempt by exact Hs. rewrite Ha, Hp. reflexivity.
Qed.

(** X5: [disconnect()] gives up exactly the session the client holds,
    once.  On every transport: after it the client holds no session; when
    it was connected, what reaches the outside is the log line
    "Disconnecting from RMC75E" followed by the release of the session it
    held, and when it was not, nothing; it opens no session and sends no
    request; and a second [disconnect()] right after releases nothing,
    leaving client and world as they are. *)
Theorem disconnect_releases_once {SessionInfo : Type}
    (E : Transport SessionInfo) (w w' : World E) (c : RMC75EClient SessionInfo) :
  sessionInfo_ (snd (fst (run E (disconnect c) w))) = None
  /\ snd (run E (disconnect c) w)
     = match sessionInfo_ c with
       | Some si =>
           release_session E si (write_log E INFO "Disconnecting from RMC75E" w)
       | None => w
       end
  /\ plcAddress_ (snd (fst (run E (disconnect c) w))) = plcAddress_ c
  /\ port_ (snd (fst (run E (disconnect c) w))) = port_ c
  /\ silent (disconnect c)
  /\ first_session (disconnect c) = None
  /\ run E (disconnect (snd (fst (run E (disconnect c) w)))) w'
     = ((Return tt, snd (fst (run E (disconnect c) w))), w').
Proof.
  assert (Hnone : sessionInfo_ (snd (fst (run E (disconnect c) w))) = None).
  { rewrite run_disconnect. destruct (sessionInfo_ c) eqn:Hs; [reflexivity |].
    exact Hs. }
  split; [exact Hnone |].
  split; [rewrite run_disconnect; destruct (sessionInfo_ c); reflexivity |].
  split; [rewrite run_disconnect; destruct (sessionInfo_ c); reflexivity |].
  split; [rewrite run_disconnect; destruct (sessionInfo_ c); reflexivity |].
  split; [apply disconnect_silent |].
  split.
  { destruct (sessionInfo_ c) as [si |] eqn:Hs.
    - rewrite (disconnect_open c si) by exact Hs. reflexivity.
    - rewrite disconnect_again by exact Hs. reflexivity. }
  rewrite (run_disconnect E w' (snd (fst (run E (disconnect c) w)))).
  rewrite Hnone. reflexivity.
Qed.

(** X6: requests travel on the session the last successful [connect()]
    obtained: when a disconnected client connects and eipScanner hands
    out session [si], [connect()] returns normally and the client holds
    [si]; from then on the register operations send their request on
    [si], and every request any public method issues carries [si]. *)
Theorem requests_use_connected_session {SessionInfo : Type}
    (E : Transport SessionInfo) (w : World E) (c : RMC75EClient SessionInfo)
    (si : SessionInfo) :
  sessionInfo_ c = None ->
  fst (open_session E (plcAddress_ c) (port_ c) w) = Return si ->
  fst (fst (run E (connect c) w)) = Return tt
  /\ sessionInfo_ (snd (fst (run E (connect c) w))) = Some si
  /\ (forall file element count,
        first_request (readFloat file element count (snd (fst (run E (connect c) w))))
        = Some (mkRequest si SVC_READ_LSB register_map
                  (buildReadPayload file element count)))
  /\ (forall service data,
        first_request (sendRawRequest service data (snd (fst (run E (connect c) w))))
        = Some (mkRequest si service register_map data))
  /\ (forall (op : operation) (q : Request SessionInfo),
        op_issues op (snd (fst (run E (connect c) w))) q -> req_session q = si).
Proof.
  intros Hs Hopen. rewrite run_connect, Hs, Hopen. cbn [fst snd].
  split; [reflexivity |]. split; [reflexivity |].
  split.
  { intros file element count. rewrite readFloat_unfold.
    apply bind_executeRequest_request. reflexivity. }
  split.
  { intros service data. unfold sendRawRequest.
    apply executeRequest_request. reflexivity. }
  intros op q Hq.
  destruct op as [ | | file element count | file element values
                 | file element count | file element values | service data];
    cbn [op_issues] in Hq.
  - exfalso. exact (connect_silent _ q Hq).
  - exfalso. exact (disconnect_silent _ q Hq).
  - apply readFloat_issues in Hq as (si' & Hs' & ->). cbn in Hs' |- *. congruence.
  - apply writeFloat_issues in Hq as (si' & Hs' & ->). cbn in Hs' |- *. congruence.
  - apply readInt32_issues in Hq as (si' & Hs' & ->). cbn in Hs' |- *. congruence.
  - apply writeInt32_issues in Hq as (si' & Hs' & ->). cbn in Hs' |- *. congruence.
  - unfold sendRawRequest in Hq.
    apply issues_executeRequest in Hq as (si' & Hs' & ->). cbn in Hs' |- *. congruence.
Qed.

Lemma requests_use_connected_session_witness :
  sessionInfo_
    (snd (fst (run Mock.transport (connect (Mock.client None))
                 (Mock.mkWorld [Return 7] [] [] []))))
  = Some 7
  /\ first_request
       (readFloat 57 30 1
          (snd (fst (run Mock.transport (connect (Mock.client None))
                       (Mock.mkWorld [Return 7] [] [] [])))))
     = Some (mkRequest 7 SVC_READ_LSB register_map (buildReadPayload 57 30 1)).
Proof.
  split.
  - exact (proj1 (proj2
      (requests_use_connected_session Mock.transport
         (Mock.mkWorld [Return 7] [] [] []) (Mock.client None) 7
         eq_refl eq_refl))).
  - exact (proj1 (proj2 (proj2
      (requests_use_connected_session Mock.transport
         (Mock.mkWorld [Return 7] [] [] []) (Mock.client None) 7
         eq_refl eq_refl))) 57 30 1).
Defined.

(** ** The text of a status failure *)

Lemma print_additional_rest (i : nat) (additional : list Z) :
  print_additional (S i) additional
  = match additional with
    | [] => ""
    | _ => ", " +:+ join_with ", " (map (fun w => "0x" +:+ hex w) additional)
    end.
Proof.
  revert i. induction additional as [| x rest IH]; intros i; [reflexivity |].
  cbn [print_additional map]. rewrite IH.
  change (0 <? S i)%nat with true. cbv iota.
  destruct rest as [| y rest'].
  - cbn [map join_with]. rewrite append_empty_r. reflexivity.
  - cbn [map join_with]. rewrite <- (append_assoc "0x"). reflexivity.
Qed.

(** X7: the text of a status failure is "CIP request failed:
    service=0x<service> status=0x<status>", both in lower-case
    hexadecimal, followed, only when there are additional status words,
    by " additional=[...]" holding every word as 0x<hex>, in the order
    received and separated by ", ". *)
Theorem status_message_format (service : Z) (response : MessageRouterResponse) :
  status_message service response
  = "CIP request failed: service=0x" +:+ hex service
    +:+ " status=0x" +:+ hex (getGeneralStatusCode response)
    +:+ match getAdditionalStatus response with
        | [] => ""
        | words =>
            " additional=["
            +:+ join_with ", " (map (fun w => "0x" +:+ hex w) words) +:+ "]"
        end.
Proof.
  unfold status_message.
  destruct (getAdditionalStatus response) as [| x rest]; [reflexivity |].
  do 5 f_equal.
  cbn [print_additional]. rewrite print_additional_rest.
  destruct rest as [| y rest'].
  - cbn [map join_with]. rewrite append_empty_r. reflexivity.
  - cbn [map join_with]. change (0 <? 0)%nat with false. cbv iota.
    rewrite <- (append_assoc "0x"). reflexivity.
Qed.

(** X8: the client's own failures can be told apart by their text: "Not
    connected ...", "CIP request failed ...", "readFloat: expected ...",
    "readInt32: expected ..." and "Failed to connect ..." are pairwise
    different whatever service, response, byte counts (each text with
    its own), address and cause they carry. *)
Theorem error_texts_distinct (service : Z) (response : MessageRouterResponse)
    (expected got expected' got' : Z) (host : string) (cause : exception) :
  let status := status_message service response in
  let short_float := "readFloat: expected " +:+ dec expected
                     +:+ " bytes, got " +:+ dec got in
  let short_int := "readInt32: expected " +:+ dec expected'
                   +:+ " bytes, got " +:+ dec got' in
  let refused := "Failed to connect to RMC75E at " +:+ host +:+ ": "
                 +:+ what cause in
  what not_connected <> status
  /\ what not_connected <> short_float
  /\ what not_connected <> short_int
  /\ what not_connected <> refused
  /\ status <> short_float /\ status <> short_int /\ status <> refused
  /\ short_float <> short_int
  /\ short_float <> refused /\ short_int <> refused.
Proof.
  cbv zeta. unfold status_message.
  repeat split; intros Heq;
    repeat (rewrite ?append_cons in Heq; injection Heq as _ Heq);
    try discriminate Heq.
Qed.

(** ** Values and bytes, the other way round *)

Lemma bytes_word_range (bs : list Z) : Forall is_uint8 bs -> is_uint32 (bytes_word bs).
Proof.
  intros Hbs. unfold bytes_word, is_uint32.
  assert (Hb : Forall (fun b => 0 <= b < 2 ^ 8) (take 4 bs)).
  { apply Forall_take. exact Hbs. }
  pose proof (little_endian_to_Z_bound 8 (take 4 bs) ltac:(lia) Hb) as [Hlo Hhi].
  split; [exact Hlo |].
  eapply Z.lt_le_trans; [exact Hhi |].
  change 4294967296 with (2 ^ 32). apply Z.pow_le_mono_r; [lia |].
  rewrite length_take. lia.
Qed.

Lemma word_bytes_bytes_word (bs : list Z) :
  Forall is_uint8 bs -> (4 <= length bs)%nat ->
  word_bytes (bytes_word bs) = take 4 bs.
Proof.
  intros Hbs Hlen. unfold word_bytes, bytes_word.
  apply (Z_to_little_endian_to_Z 4 8 (take 4 bs)).
  - rewrite length_take. lia.
  - lia.
  - apply Forall_take. exact Hbs.
Qed.

Lemma int32_to_of_word (w : Z) : is_uint32 w -> int32_to_word (int32_of_word w) = w.
Proof.
  unfold is_uint32, int32_to_word, int32_of_word. intros Hw.
  destruct (Z.ltb_spec w 2147483648) as [Hlt | Hge].
  - apply Z.mod_small. lia.
  - replace (w - 4294967296) with (w + (-1) * 4294967296) by lia.
    rewrite Z_mod_plus_full. apply Z.mod_small. lia.
Qed.

Lemma int32_of_word_range (w : Z) : is_uint32 w -> is_int32 (int32_of_word w).
Proof.
  unfold is_uint32, is_int32, int32_of_word. intros Hw.
  destruct (Z.ltb_spec w 2147483648); lia.
Qed.

Section Decoding.
Context {T : Type} `{Scalar32 T}.

Lemma data_bytes_bytes (values : list T) : Forall is_uint8 (data_bytes values).
Proof.
  induction values as [| v rest IH]; [constructor |].
  cbn [data_bytes]. apply Forall_app. split; [apply word_bytes_bytes | exact IH].
Qed.

Lemma vector_from_raw_memory (count : Z) (raw : list Z) :
  Forall is_uint8 raw ->
  Forall is_uint8 (memcpy (data_bytes (vector_n count (zero32 (T := T)))) 0 raw
                     (count * 4)).
Proof.
  intros Hraw. unfold memcpy. apply Forall_inserts.
  - apply data_bytes_bytes.
  - apply Forall_take. exact Hraw.
Qed.

(** Every value of the type is a valid one as soon as its word is 32 bits. *)
Hypothesis of_word_valid : forall w, is_uint32 w -> valid32 (of_word (T := T) w).

Lemma values_of_bytes_valid (n : nat) (bs : list Z) :
  Forall is_uint8 bs -> Forall valid32 (values_of_bytes (T := T) n bs).
Proof.
  revert bs. induction n as [| n IH]; intros bs Hbs; [constructor |].
  cbn [values_of_bytes]. constructor.
  - apply of_word_valid, bytes_word_range. exact Hbs.
  - apply IH, Forall_drop. exact Hbs.
Qed.

Lemma vector_from_raw_valid (count : Z) (raw : list Z) :
  Forall is_uint8 raw -> Forall valid32 (vector_from_raw (T := T) count raw).
Proof.
  intros Hraw. unfold vector_from_raw.
  apply values_of_bytes_valid, vector_from_raw_memory. exact Hraw.
Qed.

(** The word of a value read from a word is that word. *)
Hypothesis to_of_word : forall w, is_uint32 w -> to_word (of_word (T := T) w) = w.

Lemma data_bytes_values_of_bytes (n : nat) (bs : list Z) :
  Forall is_uint8 bs -> (4 * n <= length bs)%nat ->
  data_bytes (values_of_bytes (T := T) n bs) = take (4 * n) bs.
Proof.
  revert bs. induction n as [| n IH]; intros bs Hbs Hlen; [reflexivity |].
  cbn [values_of_bytes data_bytes]. unfold value_bytes.
  rewrite to_of_word by (apply bytes_word_range; exact Hbs).
  rewrite word_bytes_bytes_word by (assumption || lia).
  rewrite IH by (try (apply Forall_drop; exact Hbs); rewrite length_drop; lia).
  replace (4 * S n)%nat with (4 + 4 * n)%nat by lia.
  apply take_take_drop.
Qed.
End Decoding.

Lemma values_of_bytes_same_words (n : nat) (bs : list Z) :
  Forall is_uint8 bs ->
  map int32_to_word (values_of_bytes (T := int32_t) n bs)
  = map float_bits (values_of_bytes (T := float) n bs).
Proof.
  revert bs. induction n as [| n IH]; intros bs Hbs; [reflexivity |].
  cbn [values_of_bytes map]. f_equal.
  - cbn. apply int32_to_of_word, bytes_word_range. exact Hbs.
  - apply IH, Forall_drop. exact Hbs.
Qed.

Lemma data_bytes_words {T : Type} `{Scalar32 T} (values : list T) :
  data_bytes values = concat (map word_bytes (map to_word values)).
Proof.
  induction values as [| v rest IH]; [reflexivity |].
  cbn [data_bytes map concat]. rewrite IH. reflexivity.
Qed.

Lemma vector_from_raw_size {T : Type} `{Scalar32 T} (count : Z) (raw : list Z) :
  0 <= count -> size (vector_from_raw (T := T) count raw) = count.
Proof.
  intros Hc. unfold size, vector_from_raw, vector_n.
  rewrite values_of_bytes_length, length_replicate. lia.
Qed.

(** X9: the values the read accessors return are values of their type:
    whatever bytes a SUCCESS answer carries, every [int32_t] returned by
    [readInt32] lies in [-2^31, 2^31) and every [float] returned by
    [readFloat] is a 32-bit pattern; exactly [count] of them come back. *)
Theorem read_values_in_range {SessionInfo : Type}
    (c : RMC75EClient SessionInfo) (si : SessionInfo)
    (file element count : Z) (response : MessageRouterResponse) :
  sessionInfo_ c = Some si ->
  is_uint16 count ->
  Forall is_uint8 (getData response) ->
  always (fun out => match fst out with
                     | Return values =>
                         Forall is_int32 values /\ size values = count
                     | Throw _ => True
                     end)
    (after_send (readInt32 file element count c) (Return response))
  /\ always (fun out => match fst out with
                        | Return values =>
                            Forall (fun f => is_uint32 (float_bits f)) values
                            /\ size values = count
                        | Throw _ => True
                        end)
       (after_send (readFloat file element count c) (Return response)).
Proof.
  intros Hs Hc Hraw. unfold is_uint16 in Hc.
  rewrite readFloat_unfold, readInt32_unfold.
  destruct (Z.eq_dec (getGeneralStatusCode response) SUCCESS) as [Hok | Hbad].
  - rewrite !(bind_executeRequest_success c si) by assumption.
    unfold readFloat_rest, readInt32_rest.
    destruct (size (getData response) <? count * 4); cbn; [split; exact I |].
    split; split.
    + exact (vector_from_raw_valid (T := int32_t) int32_of_word_range
               count _ Hraw).
    + apply vector_from_raw_size. lia.
    + exact (vector_from_raw_valid (T := float) (fun w Hw => Hw) count _ Hraw).
    + apply vector_from_raw_size. lia.
  - rewrite !(bind_executeRequest_status c si) by assumption.
    split; exact I.
Qed.

Lemma read_values_in_range_witness :
  always (fun out => match fst out with
                     | Return values => Forall is_int32 values /\ size values = 1
                     | Throw _ => True
                     end)
    (after_send (readInt32 57 32 1 (Mock.client (Some 7)))
       (Return (mkResponse SUCCESS [] [0xFF; 0xFF; 0xFF; 0xFF]))).
Proof.
  assert (Hc : is_uint16 1) by (unfold is_uint16; lia).
  assert (Hraw : Forall is_uint8
                   (getData (mkResponse SUCCESS [] [0xFF; 0xFF; 0xFF; 0xFF]))).
  { repeat constructor; unfold is_uint8; lia. }
  exact (proj1 (read_values_in_range (Mock.client (Some 7)) 7 57 32 1
                  (mkResponse SUCCESS [] [0xFF; 0xFF; 0xFF; 0xFF])
                  eq_refl Hc Hraw)).
Defined.

(** X10: on the wire a value is its 32 bits and nothing else: a float
    array and an int32 array with the same bit patterns make [writeFloat]
    and [writeInt32] build the same payload and, on a connected client,
    issue the same request. *)
Theorem write_same_bits_same_request {SessionInfo : Type}
    (c : RMC75EClient SessionInfo) (file element : Z)
    (floats : list float) (ints : list int32_t) :
  map int32_to_word ints = map float_bits floats ->
  buildWritePayload file element (data_bytes ints)
    (static_cast_uint16 (size ints))
  = buildWritePayload file element (data_bytes floats)
      (static_cast_uint16 (size floats))
  /\ first_request (writeInt32 file element ints c)
     = first_request (writeFloat file element floats c).
Proof.
  intros Hbits.
  assert (Hdata : data_bytes ints = data_bytes floats).
  { rewrite !data_bytes_words. cbn [to_word int32_scalar float_scalar].
    rewrite Hbits. reflexivity. }
  assert (Hsize : size ints = size floats).
  { unfold size. f_equal. apply (f_equal length) in Hbits.
    rewrite !length_map in Hbits. exact Hbits. }
  rewrite Hdata, Hsize. split; [reflexivity |].
  unfold writeInt32, writeFloat, executeRequest, bind, this. cbn.
  rewrite Hdata, Hsize.
  destruct (sessionInfo_ c); reflexivity.
Qed.

Lemma write_same_bits_same_request_witness :
  first_request (writeInt32 57 33 [-1; 1078523331] (Mock.client (Some 7)))
  = first_request (writeFloat 57 33 [Float 0xFFFFFFFF; Float 0x4048F5C3]
                     (Mock.client (Some 7))).
Proof.
  exact (proj2 (write_same_bits_same_request (Mock.client (Some 7)) 57 33
                  [Float 0xFFFFFFFF; Float 0x4048F5C3] [-1; 1078523331] eq_refl)).
Defined.

(** X11: the two read accessors see the same bits: decoding the same
    answer bytes as [int32_t] and as [float] gives, position by position,
    values with the same 32-bit pattern. *)
Theorem read_same_bits_either_type (count : Z) (raw : list Z) :
  Forall is_uint8 raw ->
  map int32_to_word (vector_from_raw (T := int32_t) count raw)
  = map float_bits (vector_from_raw (T := float) count raw).
Proof.
  intros Hraw. unfold vector_from_raw.
  assert (Hzero : forall n : nat,
            data_bytes (replicate n (zero32 (T := int32_t)))
            = data_bytes (replicate n (zero32 (T := float)))).
  { induction n as [| n IH]; [reflexivity |].
    cbn [replicate data_bytes]. rewrite IH. reflexivity. }
  unfold vector_n. rewrite Hzero, !length_replicate.
  apply values_of_bytes_same_words.
  apply (vector_from_raw_memory (T := float)). exact Hraw.
Qed.

Lemma read_same_bits_either_type_witness :
  map int32_to_word (vector_from_raw (T := int32_t) 1 [0xFF; 0xFF; 0xFF; 0xFF])
  = map float_bits (vector_from_raw (T := float) 1 [0xFF; 0xFF; 0xFF; 0xFF]).
Proof.
  assert (Hraw : Forall is_uint8 [0xFF; 0xFF; 0xFF; 0xFF]).
  { repeat constructor; unfold is_uint8; lia. }
  exact (read_same_bits_either_type 1 [0xFF; 0xFF; 0xFF; 0xFF] Hraw).
Defined.

(** X12: reading and writing back changes nothing: for a 16-bit [count]
    and an answer of at least [4 * count] bytes, the payload the write
    accessor builds from the values the read accessor decoded is the
    header for [count] followed by exactly the first [4 * count] answer
    bytes, for floats and for int32s alike (no bit pattern, NaN included,
    is altered on the way). *)
Theorem read_then_write_same_bytes (file element count : Z) (raw : list Z) :
  is_uint16 count ->
  count * 4 <= size raw ->
  Forall is_uint8 raw ->
  buildWritePayload file element
    (data_bytes (vector_from_raw (T := float) count raw))
    (static_cast_uint16 (size (vector_from_raw (T := float) count raw)))
  = buildReadPayload file element count ++ take (Z.to_nat (count * 4)) raw
  /\ buildWritePayload file element
       (data_bytes (vector_from_raw (T := int32_t) count raw))
       (static_cast_uint16 (size (vector_from_raw (T := int32_t) count raw)))
     = buildReadPayload file element count ++ take (Z.to_nat (count * 4)) raw.
Proof.
  intros Hc Hlen Hraw. unfold is_uint16 in Hc.
  assert (Hf : data_bytes (vector_from_raw (T := float) count raw)
               = take (Z.to_nat (count * 4)) raw).
  { rewrite vector_from_raw_values by lia.
    replace (Z.to_nat (count * 4)) with (4 * Z.to_nat count)%nat by lia.
    apply (data_bytes_values_of_bytes (T := float)).
    - intros w _. reflexivity.
    - exact Hraw.
    - unfold size in Hlen. lia. }
  assert (Hi : data_bytes (vector_from_raw (T := int32_t) count raw)
               = take (Z.to_nat (count * 4)) raw).
  { rewrite vector_from_raw_values by lia.
    replace (Z.to_nat (count * 4)) with (4 * Z.to_nat count)%nat by lia.
    apply (data_bytes_values_of_bytes (T := int32_t)).
    - exact int32_to_of_word.
    - exact Hraw.
    - unfold size in Hlen. lia. }
  rewrite !vector_from_raw_size by lia.
  assert (Hcast : static_cast_uint16 count = count)
    by (unfold static_cast_uint16; apply Z.mod_small; lia).
  rewrite Hcast, Hf, Hi.
  assert (Htake : size (take (Z.to_nat (count * 4)) raw) = count * 4).
  { unfold size in *. rewrite length_take. lia. }
  rewrite buildWritePayload_copy by lia.
  rewrite take_idemp. split; reflexivity.
Qed.

Lemma read_then_write_same_bytes_witness :
  buildWritePayload 57 33
    (data_bytes (vector_from_raw (T := float) 1 [0x01; 0x00; 0xC0; 0xFF; 0xAA]))
    (static_cast_uint16
       (size (vector_from_raw (T := float) 1 [0x01; 0x00; 0xC0; 0xFF; 0xAA])))
  = buildReadPayload 57 33 1
    ++ take (Z.to_nat (1 * 4)) [0x01; 0x00; 0xC0; 0xFF; 0xAA].
Proof.
  assert (Hc : is_uint16 1) by (unfold is_uint16; lia).
  assert (Hlen : 1 * 4 <= size [0x01; 0x00; 0xC0; 0xFF; 0xAA])
    by (vm_compute; discriminate).
  assert (Hraw : Forall is_uint8 [0x01; 0x00; 0xC0; 0xFF; 0xAA]).
  { repeat constructor; unfold is_uint8; lia. }
  exact (proj1 (read_then_write_same_bytes 57 33 1
                  [0x01; 0x00; 0xC0; 0xFF; 0xAA] Hc Hlen Hraw)).
Defined.

(** X13: empty transfers are not refused.  On a connected client a read
    of zero values still sends its request and, on a SUCCESS answer with
    any data at all (none included), returns the empty vector, never a
    size mismatch; a write of an empty array sends a request whose
    payload is the bare six-byte header with count 0. *)
Theorem empty_transfers {SessionInfo : Type}
    (c : RMC75EClient SessionInfo) (si : SessionInfo) (file element : Z)
    (response : MessageRouterResponse) :
  sessionInfo_ c = Some si ->
  getGeneralStatusCode response = SUCCESS ->
  first_request (readFloat file element 0 c)
  = Some (mkRequest si SVC_READ_LSB register_map (buildReadPayload file element 0))
  /\ first_request (readInt32 file element 0 c)
     = Some (mkRequest si SVC_READ_LSB register_map
               (buildReadPayload file element 0))
  /\ (exists note,
        after_send (readFloat file element 0 c) (Return response)
        = Log DEBUG note (Ret (Return [], c)))
  /\ (exists note,
        after_send (readInt32 file element 0 c) (Return response)
        = Log DEBUG note (Ret (Return [], c)))
  /\ first_request (writeFloat file element [] c)
     = Some (mkRequest si SVC_WRITE_LSB register_map
               (buildReadPayload file element 0))
  /\ first_request (writeInt32 file element [] c)
     = Some (mkRequest si SVC_WRITE_LSB register_map
               (buildReadPayload file element 0)).
Proof.
  intros Hs Hok.
  rewrite readFloat_unfold, readInt32_unfold.
  rewrite !(bind_executeRequest_request c si) by exact Hs.
  rewrite !(bind_executeRequest_success c si) by assumption.
  unfold readFloat_rest, readInt32_rest.
  assert (Hsize : (size (getData response) <? 0 * 4) = false).
  { apply Z.ltb_ge. unfold size. lia. }
  rewrite Hsize.
  split; [reflexivity |]. split; [reflexivity |].
  split; [eexists; reflexivity |].
  split; [eexists; reflexivity |].
  unfold writeFloat, writeInt32.
  rewrite !(bind_executeRequest_request c si) by exact Hs.
  split; reflexivity.
Qed.

Lemma empty_transfers_witness :
  first_request (writeFloat 57 33 [] (Mock.client (Some 7)))
  = Some (mkRequest 7 SVC_WRITE_LSB register_map (buildReadPayload 57 33 0)).
Proof.
  exact (proj1 (proj2 (proj2 (proj2 (proj2
    (empty_transfers (Mock.client (Some 7)) 7 57 33 (mkResponse SUCCESS [] [])
       eq_refl eq_refl)))))).
Defined.

(** ** No undefined behaviour *)

Lemma buildWritePayload_checked_in_bounds (file element : Z) (values : list Z)
    (count : Z) :
  is_uint16 count -> count * 4 <= size values ->
  buildWritePayload_checked file element values count
  = Some (buildWritePayload file element values count).
Proof.
  unfold is_uint16. intros Hc Hlen. unfold buildWritePayload_checked.
  assert (Hint : ((-2147483648 <=? 6 + count * 4)
                  && (6 + count * 4 <? 2147483648)) = true).
  { apply andb_true_intro. split; [apply Z.leb_le | apply Z.ltb_lt]; lia. }
  rewrite Hint. cbv zeta. unfold memcpy_checked.
  match goal with
  | |- (if ?b then _ else _) = _ => assert (Hb : b = true)
  end.
  { unfold memcpy_in_bounds, size, vector_n.
    rewrite !length_insert, length_replicate.
    repeat (apply andb_true_intro; split); apply Z.leb_le;
      unfold size in Hlen; lia. }
  rewrite Hb. reflexivity.
Qed.

(** X14: the two [memcpy] calls never leave their buffers and the size
    arithmetic never overflows [int].  For every array, [writeFloat] and
    [writeInt32] call [buildWritePayload] with a count whose [4 * count]
    bytes exist in the array and fit the payload after its header; once
    the size check of [readFloat]/[readInt32] has passed, the copy into
    the result reads only bytes the answer has.  Without the check the
    copy would run past a short answer. *)
Theorem memcpy_stays_in_bounds (file element : Z)
    (floats : list float) (ints : list int32_t) (count : Z) (raw : list Z) :
  buildWritePayload_checked file element (data_bytes floats)
    (static_cast_uint16 (size floats))
  = Some (buildWritePayload file element (data_bytes floats)
            (static_cast_uint16 (size floats)))
  /\ buildWritePayload_checked file element (data_bytes ints)
       (static_cast_uint16 (size ints))
     = Some (buildWritePayload file element (data_bytes ints)
               (static_cast_uint16 (size ints)))
  /\ (is_uint16 count ->
      (size raw <? count * 4) = false ->
      vector_from_raw_checked (T := float) count raw
      = Some (vector_from_raw count raw)
      /\ vector_from_raw_checked (T := int32_t) count raw
         = Some (vector_from_raw count raw))
  /\ (is_uint16 count ->
      (size raw <? count * 4) = true ->
      vector_from_raw_checked (T := float) count raw = None
      /\ vector_from_raw_checked (T := int32_t) count raw = None).
Proof.
  assert (Hwrite : forall (T : Type) (S32 : Scalar32 T) (values : list T),
            buildWritePayload_checked file element (data_bytes values)
              (static_cast_uint16 (size values))
            = Some (buildWritePayload file element (data_bytes values)
                      (static_cast_uint16 (size values)))).
  { intros T S32 values. apply buildWritePayload_checked_in_bounds.
    - unfold is_uint16, static_cast_uint16. apply Z.mod_pos_bound. lia.
    - rewrite data_bytes_size. unfold static_cast_uint16.
      assert (size values mod 65536 <= size values)
        by (apply Z.mod_le; unfold size; lia).
      lia. }
  split; [apply Hwrite |]. split; [apply Hwrite |].
  assert (Hdst : forall (T : Type) (S32 : Scalar32 T),
            0 <= count ->
            size (data_bytes (vector_n count (zero32 (T := T)))) = count * 4).
  { intros T S32 Hc. rewrite data_bytes_size. unfold size, vector_n.
    rewrite length_replicate. lia. }
  split.
  - unfold is_uint16. intros Hc Hcheck. apply Z.ltb_ge in Hcheck.
    unfold vector_from_raw_checked, vector_from_raw, memcpy_checked,
      memcpy_in_bounds.
    rewrite !Hdst by lia.
    replace (0 <=? count * 4) with true by (symmetry; apply Z.leb_le; lia).
    replace (0 + count * 4 <=? count * 4) with true
      by (symmetry; apply Z.leb_le; lia).
    replace (count * 4 <=? size raw) with true by (symmetry; apply Z.leb_le; lia).
    split; reflexivity.
  - unfold is_uint16. intros Hc Hcheck. apply Z.ltb_lt in Hcheck.
    unfold vector_from_raw_checked, memcpy_checked, memcpy_in_bounds.
    replace (count * 4 <=? size raw) with false
      by (symmetry; apply Z.leb_gt; lia).
    rewrite !andb_false_r. split; reflexivity.
Qed.

Lemma memcpy_stays_in_bounds_witness :
  vector_from_raw_checked (T := float) 1 [0xC3; 0xF5; 0x48; 0x40]
  = Some (vector_from_raw 1 [0xC3; 0xF5; 0x48; 0x40]).
Proof.
  assert (Hc : is_uint16 1) by (unfold is_uint16; lia).
  exact (proj1 (proj1 (proj2 (proj2
    (memcpy_stays_in_bounds 57 33 [] [] 1 [0xC3; 0xF5; 0x48; 0x40]))) Hc eq_refl)).
Defined.
